(** * frontdoor-ipgroup-updater: the reconciliation pipeline of [main.py]

    A shallow embedding of [frontdoor_ipgroup_updater/main.py].  Python
    values read from JSON are a small inductive type, exceptions and
    [sys.exit] are outcomes of a trace monad, and every call that leaves
    the process (MSAL, [requests], [bs4], [json], the logger) is either an
    oracle of an environment record or an event appended to the trace; what
    argparse makes of the command line is a parameter of [main]. *)

From Stdlib Require Import ZArith List String Ascii Bool Lia Permutation.
From Stdlib Require Import Numbers.DecimalString Numbers.HexadecimalString.
Import ListNotations.

Set Warnings "-register-all".

Local Open Scope Z_scope.
Local Open Scope list_scope.

(** ** Python values and exceptions *)

Module Py.

(** The values [json.loads] and [Response.json] produce (numbers are
    integers here), which are also the values the program logs and sends.
    A dict is its items in insertion order; its keys are distinct. *)
Inductive pyval : Type :=
| PNone
| PBool (b : bool)
| PInt (n : Z)
| PStr (s : string)
| PList (l : list pyval)
| PDict (items : list (string * pyval)).

(** Exception classes the program meets; all derive from [Exception].
    [AddressValueError] and [NetmaskValueError] are the two subclasses of
    [ValueError] of the [ipaddress] module; [LibraryError] stands for
    whatever a collaborator ([requests], [json], [msal]) raises. *)
Inductive exn : Type :=
| ValueError
| AddressValueError
| NetmaskValueError
| KeyError (key : string)
| TypeError
| AttributeError
| StopIteration
| IndexError
| HTTPError (status_code : Z)
| LibraryError (name : string).

(** A pure computation that returns or raises. *)
Inductive result (A : Type) : Type :=
| Ok (a : A)
| Err (e : exn).
Arguments Ok {A} a.
Arguments Err {A} e.

Definition rbind {A B : Type} (r : result A) (k : A -> result B) : result B :=
  match r with
  | Ok a => k a
  | Err e => Err e
  end.

(** [try: r except <classes>: handler]. *)
Definition try_except {A : Type} (r : result A) (classes : exn -> bool)
           (handler : exn -> result A) : result A :=
  match r with
  | Ok a => Ok a
  | Err e => if classes e then handler e else Err e
  end.

(** [isinstance(e, ValueError)] *)
Definition is_ValueError (e : exn) : bool :=
  match e with
  | ValueError | AddressValueError | NetmaskValueError => true
  | _ => false
  end.

Definition is_AddressValueError (e : exn) : bool :=
  match e with
  | AddressValueError => true
  | _ => false
  end.

Definition is_NetmaskValueError (e : exn) : bool :=
  match e with
  | NetmaskValueError => true
  | _ => false
  end.

(** [map(f, xs)] consumed from the left: the first failure is raised. *)
Fixpoint map_result {A B : Type} (f : A -> result B) (xs : list A) : result (list B) :=
  match xs with
  | [] => Ok []
  | x :: rest =>
      match f x with
      | Err e => Err e
      | Ok y =>
          match map_result f rest with
          | Err e => Err e
          | Ok ys => Ok (y :: ys)
          end
      end
  end.

(** [d[key]] on an item list: the first item under [key]. *)
Fixpoint lookup {V : Type} (key : string) (items : list (string * V)) : option V :=
  match items with
  | [] => None
  | (k, v) :: rest => if String.eqb k key then Some v else lookup key rest
  end.

(** [key in d]. *)
Definition contains {V : Type} (key : string) (items : list (string * V)) : bool :=
  match lookup key items with
  | Some _ => true
  | None => false
  end.

(** [obj[key]] with a string key: a dict answers or raises [KeyError];
    indexing anything else with a string is a [TypeError]. *)
Definition getitem (obj : pyval) (key : string) : result pyval :=
  match obj with
  | PDict items =>
      match lookup key items with
      | Some v => Ok v
      | None => Err (KeyError key)
      end
  | _ => Err TypeError
  end.

(** The elements [iter(obj)] yields: a list its elements, a dict its
    keys, a string its characters; other values are not iterable. *)
Definition iterate (obj : pyval) : result (list pyval) :=
  match obj with
  | PList l => Ok l
  | PDict items => Ok (map (fun kv => PStr (fst kv)) items)
  | PStr s => Ok (map (fun c => PStr (String c EmptyString)) (list_ascii_of_string s))
  | _ => Err TypeError
  end.

(** [obj == s] for a string literal [s]. *)
Definition eq_str (obj : pyval) (s : string) : bool :=
  match obj with
  | PStr s' => String.eqb s' s
  | _ => false
  end.

(** [str.split(sep)] with a one-character separator. *)
Fixpoint split (sep : ascii) (s : string) : list string :=
  match s with
  | EmptyString => [EmptyString]
  | String c s' =>
      if Ascii.eqb c sep then EmptyString :: split sep s'
      else match split sep s' with
           | [] => [String c EmptyString]
           | w :: ws => String c w :: ws
           end
  end.

(** [c in s]. *)
Definition has_char (c : ascii) (s : string) : bool :=
  existsb (Ascii.eqb c) (list_ascii_of_string s).

(** [s.partition(sep)]: the text before the first [sep], and the text
    after it when there is one. *)
Fixpoint partition (sep : ascii) (s : string) : string * option string :=
  match s with
  | EmptyString => (EmptyString, None)
  | String c s' =>
      if Ascii.eqb c sep then (EmptyString, Some s')
      else let (before, after) := partition sep s' in (String c before, after)
  end.

Definition is_ascii_digit (c : ascii) : bool :=
  let n := nat_of_ascii c in (48 <=? n)%nat && (n <=? 57)%nat.

(** [s.isascii() and s.isdigit()]: non-empty, only [0-9]. *)
Definition isascii_isdigit (s : string) : bool :=
  match s with
  | EmptyString => false
  | _ => forallb is_ascii_digit (list_ascii_of_string s)
  end.

(** [int(s, 10)] on a string of ASCII digits. *)
Definition int_of_digits (s : string) : Z :=
  fold_left (fun acc c => acc * 10 + (Z.of_nat (nat_of_ascii c) - 48))
            (list_ascii_of_string s) 0.

(** [int(s)] on a string of ASCII digits: the conversion raises
    [ValueError] beyond the interpreter's limit of 4300 digits, leading
    zeros counted. *)
Definition int_of_str (s : string) : result Z :=
  if (4300 <? String.length s)%nat then Err ValueError else Ok (int_of_digits s).

(** The value of a character of [0123456789ABCDEFabcdef]. *)
Definition hex_digit (c : ascii) : option Z :=
  let n := nat_of_ascii c in
  if (48 <=? n)%nat && (n <=? 57)%nat then Some (Z.of_nat n - 48)
  else if (65 <=? n)%nat && (n <=? 70)%nat then Some (Z.of_nat n - 55)
  else if (97 <=? n)%nat && (n <=? 102)%nat then Some (Z.of_nat n - 87)
  else None.

(** [n.bit_length()] for [0 <= n]. *)
Definition bit_length (n : Z) : Z :=
  if n =? 0 then 0 else Z.log2 n + 1.

(** ['%x' % n] for [0 <= n]. *)
Definition format_hex (n : Z) : string :=
  NilZero.string_of_uint (N.to_hex_uint (Z.to_N n)).

(** [str(n)] for an integer. *)
Definition str_of_int (n : Z) : string :=
  DecimalString.NilZero.string_of_int (Z.to_int n).

End Py.
Import Py.

Declare Scope result_scope.
Delimit Scope result_scope with result.
Notation "x <- r ;; k" := (rbind r (fun x => k))
  (at level 100, r at next level, right associativity) : result_scope.

(** ** The standard library's [ipaddress], as far as [ip_network] runs it

    The program calls [ip_network(network)] with the default [strict=True].
    The model follows CPython 3.11's [ipaddress.py] function by function;
    error messages are left out, the exception classes are kept. *)

Module ipaddress.

Definition IPV4LENGTH : Z := 32.
Definition IPV6LENGTH : Z := 128.

(** What the constructors build: the network address as an integer and
    the prefix length (and the zone of a scoped IPv6 address). *)
Inductive network : Type :=
| IPv4Net (network_address prefixlen : Z)
| IPv6Net (network_address prefixlen : Z) (scope_id : option string).

(** The argument of a constructor: an [int] or text. *)
Inductive address_arg : Type :=
| AInt (n : Z)
| AStr (s : string).

Definition _split_optional_netmask (address : string) : result (list string) :=
  let addr := split "/" address in
  if (2 <? List.length addr)%nat then Err AddressValueError else Ok addr.

Definition _count_righthand_zero_bits (number bits : Z) : Z :=
  if number =? 0 then bits
  else Z.min bits (bit_length (Z.land (Z.lnot number) (number - 1))).

Section BaseAddress.
(** [cls._max_prefixlen]; [cls._ALL_ONES] is [2 ** max_prefixlen - 1]. *)
Variable _max_prefixlen : Z.

Definition _ALL_ONES : Z := 2 ^ _max_prefixlen - 1.

Definition _check_int_address (address : Z) : result unit :=
  if address <? 0 then Err AddressValueError
  else if _ALL_ONES <? address then Err AddressValueError
  else Ok tt.

Definition _ip_int_from_prefix (prefixlen : Z) : Z :=
  Z.lxor _ALL_ONES (Z.shiftr _ALL_ONES prefixlen).

Definition _prefix_from_ip_int (ip_int : Z) : result Z :=
  let trailing_zeroes := _count_righthand_zero_bits ip_int _max_prefixlen in
  let prefixlen := _max_prefixlen - trailing_zeroes in
  let leading_ones := Z.shiftr ip_int trailing_zeroes in
  let all_ones := Z.shiftl 1 prefixlen - 1 in
  if negb (leading_ones =? all_ones) then Err ValueError
  else Ok prefixlen.

Definition _prefix_from_prefix_string (prefixlen_str : string) : result Z :=
  if negb (isascii_isdigit prefixlen_str) then Err NetmaskValueError
  else
    rbind
      (try_except (int_of_str prefixlen_str) is_ValueError
                  (fun _ => Err NetmaskValueError))
      (fun prefixlen =>
         if negb ((0 <=? prefixlen) && (prefixlen <=? _max_prefixlen))
         then Err NetmaskValueError
         else Ok prefixlen).

(** An [int] is the address with a full-length prefix; text is split at
    its one optional slash. *)
Definition _split_addr_prefix (address : address_arg)
  : result (address_arg * address_arg) :=
  match address with
  | AInt n => Ok (AInt n, AInt _max_prefixlen)
  | AStr s =>
      match _split_optional_netmask s with
      | Err e => Err e
      | Ok [addr; mask] => Ok (AStr addr, AStr mask)
      | Ok (addr :: _) => Ok (AStr addr, AInt _max_prefixlen)
      | Ok [] => Err IndexError
      end
  end.
End BaseAddress.

Module BaseV4.

Definition _parse_octet (octet_str : string) : result Z :=
  if String.eqb octet_str "" then Err ValueError
  else if negb (isascii_isdigit octet_str) then Err ValueError
  else if (3 <? String.length octet_str)%nat then Err ValueError
  else if negb (String.eqb octet_str "0")
          && match octet_str with
             | String c _ => Ascii.eqb c "0"
             | EmptyString => false
             end
  then Err ValueError
  else
    let octet_int := int_of_digits octet_str in
    if 255 <? octet_int then Err ValueError else Ok octet_int.

(** [int.from_bytes(bs, 'big')] *)
Definition from_bytes_big (bs : list Z) : Z :=
  fold_left (fun acc b => acc * 256 + b) bs 0.

Definition _ip_int_from_string (ip_str : string) : result Z :=
  if String.eqb ip_str "" then Err AddressValueError
  else
    let octets := split "." ip_str in
    if negb (List.length octets =? 4)%nat then Err AddressValueError
    else
      try_except
        (rbind (map_result _parse_octet octets) (fun bs => Ok (from_bytes_big bs)))
        is_ValueError (fun _ => Err AddressValueError).

Definition IPv4Address (address : address_arg) : result Z :=
  match address with
  | AInt n => rbind (_check_int_address IPV4LENGTH n) (fun _ => Ok n)
  | AStr addr_str =>
      if has_char "/" addr_str then Err AddressValueError
      else _ip_int_from_string addr_str
  end.

Definition _prefix_from_ip_string (ip_str : string) : result Z :=
  match try_except (_ip_int_from_string ip_str)
                   is_AddressValueError (fun _ => Err NetmaskValueError) with
  | Err e => Err e
  | Ok ip_int =>
      try_except (_prefix_from_ip_int IPV4LENGTH ip_int) is_ValueError
        (fun _ =>
           let ip_int := Z.lxor ip_int (_ALL_ONES IPV4LENGTH) in
           try_except (_prefix_from_ip_int IPV4LENGTH ip_int) is_ValueError
             (fun _ => Err NetmaskValueError))
  end.

(** Returns the netmask and the prefix length. *)
Definition _make_netmask (arg : address_arg) : result (Z * Z) :=
  rbind
    match arg with
    | AInt prefixlen =>
        if negb ((0 <=? prefixlen) && (prefixlen <=? IPV4LENGTH))
        then Err NetmaskValueError
        else Ok prefixlen
    | AStr s =>
        try_except (_prefix_from_prefix_string IPV4LENGTH s)
          is_NetmaskValueError (fun _ => _prefix_from_ip_string s)
    end
    (fun prefixlen => Ok (_ip_int_from_prefix IPV4LENGTH prefixlen, prefixlen)).

End BaseV4.

(** [IPv4Network(address, strict=True)] *)
Definition IPv4Network (address : address_arg) : result network :=
  (am <- _split_addr_prefix IPV4LENGTH address ;;
   network_address <- BaseV4.IPv4Address (fst am) ;;
   np <- BaseV4._make_netmask (snd am) ;;
   let packed := network_address in
   if negb (Z.land packed (fst np) =? packed) then Err ValueError
   else Ok (IPv4Net network_address (snd np)))%result.

Module BaseV6.

Definition _HEXTET_COUNT : Z := 8.

(** [int(hextet_str, 16)] on hex digits; the empty string is a
    [ValueError]. *)
Definition int_of_hex (hextet_str : string) : result Z :=
  if String.eqb hextet_str "" then Err ValueError
  else
    Ok (fold_left
          (fun acc c => acc * 16 + match hex_digit c with Some d => d | None => 0 end)
          (list_ascii_of_string hextet_str) 0).

Definition _parse_hextet (hextet_str : string) : result Z :=
  if negb (forallb (fun c => match hex_digit c with Some _ => true | None => false end)
                   (list_ascii_of_string hextet_str))
  then Err ValueError
  else if (4 <? String.length hextet_str)%nat then Err ValueError
  else int_of_hex hextet_str.

(** The loop over [range(1, len(parts) - 1)] that looks for the one
    empty part of a double colon; [i] is the index of the head of
    [inner]. *)
Fixpoint find_skip_index (inner : list string) (i : Z) (skip_index : option Z)
  : result (option Z) :=
  match inner with
  | [] => Ok skip_index
  | part :: rest =>
      if String.eqb part "" then
        match skip_index with
        | Some _ => Err AddressValueError
        | None => find_skip_index rest (i + 1) (Some i)
        end
      else find_skip_index rest (i + 1) skip_index
  end.

(** [ip_int <<= 16; ip_int |= hextet] over the parsed hextets. *)
Definition shift_in (ip_int : Z) (hextets : list Z) : Z :=
  fold_left (fun acc h => Z.lor (Z.shiftl acc 16) h) hextets ip_int.

Definition _ip_int_from_string (ip_str : string) : result Z :=
  if String.eqb ip_str "" then Err AddressValueError
  else
    let parts := split ":" ip_str in
    let _min_parts := 3%nat in
    if (List.length parts <? _min_parts)%nat then Err AddressValueError
    else
      (parts <-
         (if has_char "." (last parts ""%string) then
            try_except
              (ipv4_int <- BaseV4.IPv4Address (AStr (last parts ""%string)) ;;
               Ok (removelast parts
                     ++ [format_hex (Z.land (Z.shiftr ipv4_int 16) 65535)]
                     ++ [format_hex (Z.land ipv4_int 65535)]))
              is_AddressValueError (fun _ => Err AddressValueError)
          else Ok parts) ;;
       let len := Z.of_nat (List.length parts) in
       let _max_parts := _HEXTET_COUNT + 1 in
       if _max_parts <? len then Err AddressValueError
       else
         skip_index <- find_skip_index (removelast (tl parts)) 1 None ;;
         let first_empty := String.eqb (hd ""%string parts) "" in
         let last_empty := String.eqb (last parts ""%string) "" in
         counts <-
           match skip_index with
           | Some skip_index =>
               let parts_hi := skip_index in
               let parts_lo := len - skip_index - 1 in
               let parts_hi := if first_empty then parts_hi - 1 else parts_hi in
               if first_empty && negb (parts_hi =? 0) then Err AddressValueError
               else
                 let parts_lo := if last_empty then parts_lo - 1 else parts_lo in
                 if last_empty && negb (parts_lo =? 0) then Err AddressValueError
                 else
                   let parts_skipped := _HEXTET_COUNT - (parts_hi + parts_lo) in
                   if parts_skipped <? 1 then Err AddressValueError
                   else Ok (parts_hi, parts_lo, parts_skipped)
           | None =>
               if negb (len =? _HEXTET_COUNT) then Err AddressValueError
               else if first_empty then Err AddressValueError
               else if last_empty then Err AddressValueError
               else Ok (len, 0, 0)
           end ;;
         let '(parts_hi, parts_lo, parts_skipped) := counts in
         try_except
           (hi <- map_result _parse_hextet (firstn (Z.to_nat parts_hi) parts) ;;
            let ip_int := shift_in 0 hi in
            let ip_int := Z.shiftl ip_int (16 * parts_skipped) in
            lo <- map_result _parse_hextet (skipn (Z.to_nat (len - parts_lo)) parts) ;;
            Ok (shift_in ip_int lo))
           is_ValueError (fun _ => Err AddressValueError))%result.

(** Returns the address and its scope id. *)
Definition _split_scope_id (ip_str : string) : result (string * option string) :=
  match partition "%" ip_str with
  | (addr, None) => Ok (addr, None)
  | (addr, Some scope_id) =>
      if String.eqb scope_id "" || has_char "%" scope_id then Err AddressValueError
      else Ok (addr, Some scope_id)
  end.

Definition IPv6Address (address : address_arg) : result (Z * option string) :=
  match address with
  | AInt n => rbind (_check_int_address IPV6LENGTH n) (fun _ => Ok (n, None))
  | AStr addr_str =>
      if has_char "/" addr_str then Err AddressValueError
      else
        (as_ <- _split_scope_id addr_str ;;
         ip <- _ip_int_from_string (fst as_) ;;
         Ok (ip, snd as_))%result
  end.

(** Returns the netmask and the prefix length. *)
Definition _make_netmask (arg : address_arg) : result (Z * Z) :=
  rbind
    match arg with
    | AInt prefixlen =>
        if negb ((0 <=? prefixlen) && (prefixlen <=? IPV6LENGTH))
        then Err NetmaskValueError
        else Ok prefixlen
    | AStr s => _prefix_from_prefix_string IPV6LENGTH s
    end
    (fun prefixlen => Ok (_ip_int_from_prefix IPV6LENGTH prefixlen, prefixlen)).

End BaseV6.

(** [IPv6Network(address, strict=True)] *)
Definition IPv6Network (address : address_arg) : result network :=
  (am <- _split_addr_prefix IPV6LENGTH address ;;
   network_address <- BaseV6.IPv6Address (fst am) ;;
   np <- BaseV6._make_netmask (snd am) ;;
   let packed := fst network_address in
   if negb (Z.land packed (fst np) =? packed) then Err ValueError
   else Ok (IPv6Net (fst network_address) (snd np) (snd network_address)))%result.

Definition is_Address_or_Netmask_ValueError (e : exn) : bool :=
  is_AddressValueError e || is_NetmaskValueError e.

(** [ip_network(address)] once the argument is an [int] or text. *)
Definition ip_network_arg (address : address_arg) : result network :=
  try_except (IPv4Network address) is_Address_or_Netmask_ValueError
    (fun _ =>
       try_except (IPv6Network address) is_Address_or_Netmask_ValueError
         (fun _ => Err ValueError)).

(** [ip_network(address)] on a value of the JSON payload.  A [bool] is an
    [int].  Any other value is parsed through its [str()]: that of [None]
    is the text [None]; that of a list or a dict starts with a bracket or
    a brace, which fails the octet test of the IPv4 parser and the part
    count or the hextet test of the IPv6 parser. *)
Definition ip_network (address : pyval) : result network :=
  match address with
  | PInt n => ip_network_arg (AInt n)
  | PBool b => ip_network_arg (AInt (if b then 1 else 0))
  | PStr s => ip_network_arg (AStr s)
  | PNone => ip_network_arg (AStr "None")
  | PList _ | PDict _ => Err ValueError
  end.

End ipaddress.

(** ** The process: trace, outcomes and the collaborators *)

(** What a run leaves behind, oldest first: log records and the calls that
    leave the process. *)
Inductive event : Type :=
| LogWarning (msg : string) (extra : list (string * pyval)) (exc_info : option exn)
| AcquireToken (client_id client_credential authority : string) (scopes : list string)
| HttpGet (url : string) (headers : list (string * string))
| HttpPut (url : string) (headers : list (string * string)) (json : pyval).

(** How a call ends: it returns, an exception leaves it, or [sys.exit(code)]
    was called ([SystemExit] is not an [Exception]: no handler of the
    program catches it). *)
Inductive outcome (A : Type) : Type :=
| Return (a : A)
| Raise (e : exn)
| SystemExit (code : Z).
Arguments Return {A} a.
Arguments Raise {A} e.
Arguments SystemExit {A} code.

(** A computation appends to the trace it is given. *)
Definition M (A : Type) : Type := list event -> outcome A * list event.

Definition ret {A : Type} (a : A) : M A := fun t => (Return a, t).

Definition bind {A B : Type} (m : M A) (k : A -> M B) : M B :=
  fun t =>
    match m t with
    | (Return a, t') => k a t'
    | (Raise e, t') => (Raise e, t')
    | (SystemExit code, t') => (SystemExit code, t')
    end.

Definition emit (ev : event) : M unit := fun t => (Return tt, t ++ [ev]).

Definition raise {A : Type} (e : exn) : M A := fun t => (Raise e, t).

(** [sys.exit(code)] *)
Definition exit {A : Type} (code : Z) : M A := fun t => (SystemExit code, t).

(** A step that ends as [o] and leaves the trace as it is. *)
Definition from_outcome {A : Type} (o : outcome A) : M A := fun t => (o, t).

Definition lift {A : Type} (r : result A) : M A :=
  match r with
  | Ok a => ret a
  | Err e => raise e
  end.

(** [try: body except Exception as e: handler(e)] *)
Definition try_except_Exception {A : Type} (body : M A) (handler : exn -> M A) : M A :=
  fun t =>
    match body t with
    | (Raise e, t') => handler e t'
    | other => other
    end.

Declare Scope trace_scope.
Delimit Scope trace_scope with M.
Notation "x <- m ;; k" := (bind m (fun x => k))
  (at level 100, m at next level, right associativity) : trace_scope.
Notation "m ;;; k" := (bind m (fun _ => k))
  (at level 100, right associativity) : trace_scope.

(** [log.warning(msg, extra=extra, exc_info=exc_info)] *)
Definition log_warning (msg : string) (extra : list (string * pyval))
           (exc_info : option exn) : M unit :=
  emit (LogWarning msg extra exc_info).

(** The status the interpreter hands to the operating system when [main]
    ends: 0 after a return, the code of [sys.exit], 1 after an uncaught
    exception. *)
Definition exit_status {A : Type} (o : outcome A) : Z :=
  match o with
  | Return _ => 0
  | Raise _ => 1
  | SystemExit code => code
  end.

(** A [requests.Response], as far as the program reads it. *)
Record Response : Type := {
  status_code : Z;
  content : string
}.

(** The collaborators of a run.  Each answers a request the same way
    whenever it is asked; a collaborator that fails raises.
    [acquire_token_for_client] covers building the MSAL application and
    asking it for a token; its answer is the result dict, of which the
    program reads string entries only.  [soup_find] stands for parsing a
    page and [find(name, attrs=...)] on it, and answers the attributes of
    the tag found. *)
Record Env : Type := {
  acquire_token_for_client :
    string -> string -> string -> list string -> result (list (string * string));
  requests_get : string -> list (string * string) -> result Response;
  requests_put : string -> list (string * string) -> pyval -> result Response;
  json_loads : string -> result pyval;
  soup_find : string -> string -> list (string * string) -> option (list (string * string))
}.

(** [frontdoor_ipgroup_updater.settings.settings]; identifiers are held in
    their text form. *)
Record Settings : Type := {
  application_id : string;
  application_secret : string;
  tenant_id : string;
  subscription_id : string;
  resource_group_name : string;
  ip_group_name : string;
  minimum_acceptable_v4_networks : Z
}.

(** [Response.raise_for_status()]: client and server error codes raise. *)
Definition raise_for_status (resp : Response) : M unit :=
  if (400 <=? status_code resp) && (status_code resp <? 600)
  then raise (HTTPError (status_code resp))
  else ret tt.

(** [next(section for section in sections if section["id"] == wanted)] *)
Fixpoint next_section (wanted : string) (sections : list pyval) : result pyval :=
  match sections with
  | [] => Err StopIteration
  | section :: rest =>
      match getitem section "id" with
      | Err e => Err e
      | Ok id => if eq_str id wanted then Ok section else next_section wanted rest
      end
  end.

(** The dict [_filter_ip_versions] returns, with its two keys. *)
Record ip_versions : Type := {
  ipv4 : list pyval;
  ipv6 : list pyval
}.

(** [type(n) == IPv4Network] and [type(n) == IPv6Network] *)
Definition type_is_IPv4Network (n : ipaddress.network) : bool :=
  match n with
  | ipaddress.IPv4Net _ _ => true
  | ipaddress.IPv6Net _ _ _ => false
  end.

Definition type_is_IPv6Network (n : ipaddress.network) : bool :=
  match n with
  | ipaddress.IPv4Net _ _ => false
  | ipaddress.IPv6Net _ _ _ => true
  end.

(** ** The program *)

Section Program.

Variable env : Env.
Variable settings : Settings.

Local Open Scope trace_scope.
Local Open Scope string_scope.

Definition http_get (url : string) (headers : list (string * string)) : M Response :=
  emit (HttpGet url headers) ;;; lift (requests_get env url headers).

Definition http_put (url : string) (headers : list (string * string)) (json : pyval)
  : M Response :=
  emit (HttpPut url headers json) ;;; lift (requests_put env url headers json).

(** [token[key]] on the MSAL result. *)
Definition token_getitem (token : list (string * string)) (key : string) : M string :=
  match lookup key token with
  | Some v => ret v
  | None => raise (KeyError key)
  end.

Definition _get_auth_token : M string :=
  let client_id := application_id settings in
  let client_credential := application_secret settings in
  let authority := "https://login.microsoftonline.com/" ++ tenant_id settings in
  let scopes := ["https://management.core.windows.net//.default"] in
  emit (AcquireToken client_id client_credential authority scopes) ;;;
  token <- lift (acquire_token_for_client env client_id client_credential authority scopes) ;;
  if contains "access_token" token then
    token_getitem token "access_token"
  else
    error <- token_getitem token "error" ;;
    error_description <- token_getitem token "error_description" ;;
    log_warning "Failed to get auth token"
                [("error", PStr error); ("error_description", PStr error_description)]
                None ;;;
    exit 1.

(** The [for network in networks] loop, with the two lists it appends to. *)
Fixpoint _filter_ip_versions_loop (networks : list pyval) (ipv4 ipv6 : list pyval)
  : M (list pyval * list pyval) :=
  match networks with
  | [] => ret (ipv4, ipv6)
  | network :: rest =>
      n <- lift (ipaddress.ip_network network) ;;
      if type_is_IPv4Network n then
        _filter_ip_versions_loop rest (ipv4 ++ [network]) ipv6
      else
        n' <- lift (ipaddress.ip_network network) ;;
        if type_is_IPv6Network n' then
          _filter_ip_versions_loop rest ipv4 (ipv6 ++ [network])
        else
          log_warning "Unknown Network Detected" [("network", network)] None ;;;
          _filter_ip_versions_loop rest ipv4 ipv6
  end.

Definition _filter_ip_versions (networks : list pyval) : M ip_versions :=
  lists <- _filter_ip_versions_loop networks [] [] ;;
  let ipv4 := fst lists in
  let ipv6 := snd lists in
  log_warning "Successfully Split IPv4 and IPv6 Addresses"
              [("ipv4", PList ipv4); ("ipv6", PList ipv6)] None ;;;
  ret {| ipv4 := ipv4; ipv6 := ipv6 |}.

Definition page : string :=
  "https://www.microsoft.com/en-us/download/confirmation.aspx?id=56519".

Definition headers : list (string * string) :=
  [("User-Agent",
    "Mozilla/5.0 (Macintosh; Intel Mac OS X 10_15_7) AppleWebKit/537.36 "
    ++ "(KHTML, like Gecko) Chrome/105.0.0.0 Safari/537.36 Edg/105.0.1343.42")].

(** The body of the [try] of [_get_frontdoor_ips] (lines 52 to 60); its
    value is [frontdoor]. *)
Definition _get_frontdoor_ips_try : M pyval :=
  resp <- http_get page headers ;;
  raise_for_status resp ;;;
  json_file <-
    match soup_find env (content resp) "a" [("data-bi-id", "downloadretry")] with
    | None => raise AttributeError
    | Some attrs =>
        match lookup "href" attrs with
        | Some href => ret href
        | None => raise (KeyError "href")
        end
    end ;;
  file_resp <- http_get json_file headers ;;
  data <- lift (json_loads env (content file_resp)) ;;
  values <- lift (getitem data "values") ;;
  sections <- lift (iterate values) ;;
  lift (next_section "AzureFrontDoor.Frontend" sections).

Definition _get_frontdoor_ips : M (list pyval) :=
  frontdoor <-
    try_except_Exception _get_frontdoor_ips_try
      (fun e =>
         log_warning "Unable to get IP list from Microsoft Documentation" [] (Some e) ;;;
         exit 1) ;;
  properties <- lift (getitem frontdoor "properties") ;;
  addressPrefixes <- lift (getitem properties "addressPrefixes") ;;
  lift (iterate addressPrefixes).

Definition resource_url : string :=
  "https://management.azure.com"
  ++ "/subscriptions/" ++ subscription_id settings
  ++ "/resourceGroups/" ++ resource_group_name settings
  ++ "/providers/Microsoft.Network/ipGroups/" ++ ip_group_name settings
  ++ "?api-version=2022-01-01".

Definition bearer_headers (auth_token : string) : list (string * string) :=
  [("Authorization", "Bearer " ++ auth_token); ("Content-Type", "application/json")].

(** The body of the [try] of [update_azure_ip_group] (lines 94 to 104). *)
Definition update_azure_ip_group_try (auth_token : string) (addresses : list pyval)
           (existing_metadata : pyval) : M unit :=
  tags <- lift (getitem existing_metadata "tags") ;;
  location <- lift (getitem existing_metadata "location") ;;
  update_group <-
    http_put resource_url (bearer_headers auth_token)
      (PDict [("tags", tags);
              ("location", location);
              ("properties", PDict [("ipAddresses", PList addresses)])]) ;;
  raise_for_status update_group ;;;
  log_warning "Successfully updated IP Group with latest set of networks" [] None.

Definition update_azure_ip_group (auth_token : string) (addresses : list pyval)
           (dry_run : bool) : M unit :=
  resp <- http_get resource_url (bearer_headers auth_token) ;;
  existing_metadata <- lift (json_loads env (content resp)) ;;
  properties <- lift (getitem existing_metadata "properties") ;;
  ipAddresses <- lift (getitem properties "ipAddresses") ;;
  tags <- lift (getitem existing_metadata "tags") ;;
  location <- lift (getitem existing_metadata "location") ;;
  log_warning "Successfully pulled existing resource metadata"
              [("addresses", ipAddresses); ("tags", tags); ("location", location)]
              None ;;;
  if dry_run then
    log_warning "Dry Run mode enabled, skipping actual update" [] None
  else
    log_warning "Submitting new list of IPs to Azure API" [("ips", PList addresses)] None ;;;
    try_except_Exception
      (update_azure_ip_group_try auth_token addresses existing_metadata)
      (fun e => log_warning "Something went wrong" [] (Some e)).

(** Lines 119 to 124 of [main]: what happens to the fetched list. *)
Definition main_classify_and_update (auth_token : string) (frontdoor_ips : list pyval)
           (dry_run : bool) : M unit :=
  frontdoor_ip_versions <- _filter_ip_versions frontdoor_ips ;;
  if Z.of_nat (List.length (ipv4 frontdoor_ip_versions))
     >? minimum_acceptable_v4_networks settings
  then
    update_azure_ip_group auth_token (ipv4 frontdoor_ip_versions) dry_run
  else
    log_warning ("Less than " ++ str_of_int (minimum_acceptable_v4_networks settings)
                 ++ " IPv4 Networks detected, cowardly exiting") [] None ;;;
    exit 1.

(** Lines 114 to 124 of [main]: the run once the command line is parsed;
    [args_dry_run] is [args.dry_run]. *)
Definition main_after_parse_args (args_dry_run : bool) : M unit :=
  let dry_run := if args_dry_run then true else false in
  auth_token <- _get_auth_token ;;
  frontdoor_ips <- _get_frontdoor_ips ;;
  frontdoor_ip_versions <- _filter_ip_versions frontdoor_ips ;;
  if Z.of_nat (List.length (ipv4 frontdoor_ip_versions))
     >? minimum_acceptable_v4_networks settings
  then
    update_azure_ip_group auth_token (ipv4 frontdoor_ip_versions) dry_run
  else
    log_warning ("Less than " ++ str_of_int (minimum_acceptable_v4_networks settings)
                 ++ " IPv4 Networks detected, cowardly exiting") [] None ;;;
    exit 1.

(** What [parser.parse_args()] does with the command line, for the parser
    of lines 110 and 111 with its one flag [--dry-run]: it returns the
    namespace, of which the program reads [dry_run], or it ends the process
    itself (argparse calls [sys.exit] after printing the help and after a
    usage error). *)
Variable parse_args : list string -> outcome bool.

(** [main()], given the command line after the program name. *)
Definition main (argv : list string) : M unit :=
  args_dry_run <- from_outcome (parse_args argv) ;;
  main_after_parse_args args_dry_run.

End Program.

(** A run with the parsed [--dry-run] flag [args_dry_run], from the empty
    trace. *)
Definition run (env : Env) (settings : Settings) (args_dry_run : bool)
  : outcome unit * list event :=
  main_after_parse_args env settings args_dry_run [].

(** ** Vocabulary of the statements *)

(** How [_filter_ip_versions] sees one element. *)
Definition is_ipv4 (network : pyval) : bool :=
  match ipaddress.ip_network network with
  | Ok n => type_is_IPv4Network n
  | Err _ => false
  end.

Definition is_ipv6 (network : pyval) : bool :=
  match ipaddress.ip_network network with
  | Ok n => type_is_IPv6Network n
  | Err _ => false
  end.

(** [subsequence s l]: [s] is [l] with some elements left out, the others
    in their order. *)
Inductive subsequence {A : Type} : list A -> list A -> Prop :=
| subsequence_nil : subsequence [] []
| subsequence_skip : forall x s l, subsequence s l -> subsequence s (x :: l)
| subsequence_keep : forall x s l, subsequence s l -> subsequence (x :: s) (x :: l).

(** The requests of a trace, in their order. *)
Definition is_http (ev : event) : bool :=
  match ev with
  | HttpGet _ _ | HttpPut _ _ _ => true
  | _ => false
  end.

Definition http_events (t : list event) : list event := filter is_http t.

Definition is_unknown_network_warning (ev : event) : bool :=
  match ev with
  | LogWarning msg _ _ => String.eqb msg "Unknown Network Detected"
  | _ => false
  end.

(** The summary record [_filter_ip_versions] logs before it returns. *)
Definition split_summary (d : ip_versions) : event :=
  LogWarning "Successfully Split IPv4 and IPv6 Addresses"
             [("ipv4"%string, PList (ipv4 d)); ("ipv6"%string, PList (ipv6 d))] None.

(** The body of the update for given metadata and addresses. *)
Definition put_body (tags location : pyval) (addresses : list pyval) : pyval :=
  PDict [("tags"%string, tags);
         ("location"%string, location);
         ("properties"%string, PDict [("ipAddresses"%string, PList addresses)])].

(** The exception of the first element [ip_network] rejects, if any. *)
Fixpoint first_error (networks : list pyval) : option exn :=
  match networks with
  | [] => None
  | network :: rest =>
      match ipaddress.ip_network network with
      | Err e => Some e
      | Ok _ => first_error rest
      end
  end.

(** [m] only appends, and what it appends and how it ends do not depend on
    the trace it starts from. *)
Definition framed {A : Type} (m : M A) : Prop :=
  forall t, m t = (fst (m []), t ++ snd (m [])).

(** The write requests of a trace. *)
Definition is_put (ev : event) : bool :=
  match ev with
  | HttpPut _ _ _ => true
  | _ => false
  end.

Definition put_requests (t : list event) : list event := filter is_put t.

(** The read of the IP group succeeds and the resource it returns carries
    an address list, tags and a location. *)
Definition ip_group_reads (env : Env) (settings : Settings) (auth_token : string)
           (ipAddresses tags location : pyval) : Prop :=
  exists resp existing_metadata properties,
    requests_get env (resource_url settings) (bearer_headers auth_token) = Ok resp /\
    json_loads env (content resp) = Ok existing_metadata /\
    getitem existing_metadata "properties" = Ok properties /\
    getitem properties "ipAddresses" = Ok ipAddresses /\
    getitem existing_metadata "tags" = Ok tags /\
    getitem existing_metadata "location" = Ok location.

(** The exception the write of [body] ends with, if it fails: the one
    [requests.put] raises, or the [HTTPError] of [raise_for_status]. *)
Definition put_failure (env : Env) (settings : Settings) (auth_token : string)
           (body : pyval) : option exn :=
  match requests_put env (resource_url settings) (bearer_headers auth_token) body with
  | Err e => Some e
  | Ok update_group =>
      if (400 <=? status_code update_group) && (status_code update_group <? 600)
      then Some (HTTPError (status_code update_group))
      else None
  end.

(** The run gets a token, fetches a list and classifies it into [d],
    leaving the trace [t]. *)
Definition classifies (env : Env) (settings : Settings) (auth_token : string)
           (d : ip_versions) (t : list event) : Prop :=
  exists t_auth frontdoor_ips t_fetch,
    _get_auth_token env settings [] = (Return auth_token, t_auth) /\
    _get_frontdoor_ips env t_auth = (Return frontdoor_ips, t_fetch) /\
    _filter_ip_versions frontdoor_ips t_fetch = (Return d, t).

(** The warning of the validation, naming the threshold. *)
Definition below_threshold_warning (settings : Settings) : event :=
  LogWarning ("Less than " ++ str_of_int (minimum_acceptable_v4_networks settings)
              ++ " IPv4 Networks detected, cowardly exiting")%string [] None.

(** The record of the handler of [_get_frontdoor_ips]. *)
Definition fetch_failure_warning (e : exn) : event :=
  LogWarning "Unable to get IP list from Microsoft Documentation" [] (Some e).

(** The stages of the fetch chain that went well so far. *)
Definition fetches_page (env : Env) (resp : Response) : Prop :=
  requests_get env page headers = Ok resp /\
  (400 <=? status_code resp) && (status_code resp <? 600) = false.

Definition finds_link (env : Env) (resp : Response) (href : string) : Prop :=
  exists attrs,
    soup_find env (content resp) "a" [("data-bi-id"%string, "downloadretry"%string)]
    = Some attrs /\
    lookup "href" attrs = Some href.

Definition fetches_payload (env : Env) (href : string) (file_resp : Response) : Prop :=
  requests_get env href headers = Ok file_resp.

Definition reads_sections (env : Env) (file_resp : Response) (sections : list pyval) : Prop :=
  exists data values,
    json_loads env (content file_resp) = Ok data /\
    getitem data "values" = Ok values /\
    iterate values = Ok sections.


(** [m] adds no write request to the trace, however it ends. *)
Definition writes_nothing {A : Type} (m : M A) : Prop :=
  forall t, put_requests (snd (m t)) = put_requests t.

(** When [m] ends in [sys.exit], the code is 1. *)
Definition exits_with_1 {A : Type} (m : M A) : Prop :=
  forall t code, fst (m t) = SystemExit code -> code = 1.

(** The token request of [_get_auth_token]. *)
Definition token_request (settings : Settings) : event :=
  AcquireToken (application_id settings) (application_secret settings)
               ("https://login.microsoftonline.com/" ++ tenant_id settings)%string
               ["https://management.core.windows.net//.default"%string].

(** What the identity provider answers to that request. *)
Definition token_answer (env : Env) (settings : Settings)
  : result (list (string * string)) :=
  acquire_token_for_client env (application_id settings) (application_secret settings)
                           ("https://login.microsoftonline.com/" ++ tenant_id settings)%string
                           ["https://management.core.windows.net//.default"%string].

(** The record of the reconciler after its read. *)
Definition metadata_record (ipAddresses tags location : pyval) : event :=
  LogWarning "Successfully pulled existing resource metadata"
             [("addresses"%string, ipAddresses); ("tags"%string, tags);
              ("location"%string, location)] None.

(** The section carries the id [wanted], or an id that is not [wanted]. *)
Definition has_id (wanted : string) (section : pyval) : Prop :=
  exists id, getitem section "id" = Ok id /\ eq_str id wanted = true.

Definition has_other_id (wanted : string) (section : pyval) : Prop :=
  exists id, getitem section "id" = Ok id /\ eq_str id wanted = false.

(** The read of the reconciler as one fallible computation: the request,
    the parse of the body, and the three lookups in the order of the code. *)
Definition read_ip_group (env : Env) (settings : Settings) (auth_token : string)
  : result (pyval * pyval * pyval) :=
  (resp <- requests_get env (resource_url settings) (bearer_headers auth_token) ;;
   existing_metadata <- json_loads env (content resp) ;;
   properties <- getitem existing_metadata "properties" ;;
   ipAddresses <- getitem properties "ipAddresses" ;;
   tags <- getitem existing_metadata "tags" ;;
   location <- getitem existing_metadata "location" ;;
   Ok (ipAddresses, tags, location))%result.

(** The whole fetch chain goes well: the page is served, its anchor leads
    to [href], the payload there parses, and the section of the front door
    carries the list [prefixes]. *)
Definition fetches_prefixes (env : Env) (href : string) (prefixes : list pyval) : Prop :=
  exists resp file_resp sections frontdoor properties,
    fetches_page env resp /\
    finds_link env resp href /\
    fetches_payload env href file_resp /\
    reads_sections env file_resp sections /\
    next_section "AzureFrontDoor.Frontend" sections = Ok frontdoor /\
    getitem frontdoor "properties" = Ok properties /\
    getitem properties "addressPrefixes" = Ok (PList prefixes).

(** The calls of a trace that leave the process, in their order. *)
Definition is_request (ev : event) : bool :=
  match ev with
  | LogWarning _ _ _ => false
  | _ => true
  end.

Definition requests (t : list event) : list event := filter is_request t.

(** ** A sample world *)

Module Demo.

Local Open Scope string_scope.

Definition settings : Settings := {|
  application_id := "0f3c1b2a-app";
  application_secret := "s3cret";
  tenant_id := "contoso-tenant";
  subscription_id := "sub-0001";
  resource_group_name := "rg-network";
  ip_group_name := "frontdoor";
  minimum_acceptable_v4_networks := 10
|}.

Definition download_url : string :=
  "https://download.microsoft.com/download/ServiceTags_Public.json".

(** Bodies are named, not spelled out. *)
Definition landing_page : Response := {| status_code := 200; content := "<landing page>" |}.
Definition payload_file : Response := {| status_code := 200; content := "<service tags>" |}.
Definition ip_group_body : Response := {| status_code := 200; content := "<ip group>" |}.

Definition section (id : string) (prefixes : list pyval) : pyval :=
  PDict [("id", PStr id); ("properties", PDict [("addressPrefixes", PList prefixes)])].

Definition payload (prefixes : list pyval) : pyval :=
  PDict [("values",
          PList [section "AzureCloud" [PStr "13.64.0.0/16"];
                 section "AzureFrontDoor.Frontend" prefixes])].

Definition existing_resource : pyval :=
  PDict [("tags", PDict [("env", PStr "prod")]);
         ("location", PStr "eastus");
         ("properties", PDict [("ipAddresses", PList [PStr "1.2.3.0/24"])])].

(** A world given the identity provider's answer, the prefixes the vendor
    publishes, and how the IP group answers a GET and a PUT. *)
Definition env (token : result (list (string * string))) (prefixes : list pyval)
           (get_ip_group put_ip_group : result Response) : Env := {|
  acquire_token_for_client := fun _ _ _ _ => token;
  requests_get := fun url _ =>
    if String.eqb url page then Ok landing_page
    else if String.eqb url download_url then Ok payload_file
    else if String.eqb url (resource_url settings) then get_ip_group
    else Err (LibraryError "ConnectionError");
  requests_put := fun _ _ _ => put_ip_group;
  json_loads := fun text =>
    if String.eqb text "<service tags>" then Ok (payload prefixes)
    else if String.eqb text "<ip group>" then Ok existing_resource
    else Err (LibraryError "JSONDecodeError");
  soup_find := fun markup _ _ =>
    if String.eqb markup "<landing page>"
    then Some [("data-bi-id", "downloadretry"); ("href", download_url)]
    else None
|}.

Definition good_token : result (list (string * string)) :=
  Ok [("token_type", "Bearer"); ("access_token", "eyJ0-token")].

Definition bad_token : result (list (string * string)) :=
  Ok [("error", "invalid_client"); ("error_description", "bad secret")].

Definition ten_v4 : list pyval :=
  map PStr ["10.0.0.0/24"; "10.0.1.0/24"; "10.0.2.0/24"; "10.0.3.0/24"; "10.0.4.0/24";
            "10.0.5.0/24"; "10.0.6.0/24"; "10.0.7.0/24"; "10.0.8.0/24"; "10.0.9.0/24"].

Definition eleven_v4 : list pyval := ten_v4 ++ [PStr "10.0.10.0/24"].

Definition mixed : list pyval :=
  [PStr "10.0.0.0/8"; PStr "2001:db8::/32"; PStr "not-an-ip"].

Definition interleaved : list pyval :=
  [PStr "2001:db8::/32"; PStr "192.168.0.0/16"; PStr "2a01:111::/32"; PStr "10.0.0.0/8"].

Definition ok_response : result Response := Ok {| status_code := 200; content := "<ip group>" |}.
Definition conflict_response : result Response := Ok {| status_code := 409; content := "" |}.
Definition connection_error : result Response := Err (LibraryError "ConnectionError").

(** The trace of a run of the sample world up to the classification. *)
Definition classified_trace (e : Env) (prefixes : list pyval) : list event :=
  snd (_filter_ip_versions prefixes
         (snd (_get_frontdoor_ips e (snd (_get_auth_token e settings []))))).

Definition healthy (prefixes : list pyval) : Env :=
  env good_token prefixes ok_response ok_response.


(** The healthy world, but the section of the front door has no
    [properties]. *)
Definition without_properties : Env := {|
  acquire_token_for_client := acquire_token_for_client (healthy eleven_v4);
  requests_get := requests_get (healthy eleven_v4);
  requests_put := requests_put (healthy eleven_v4);
  json_loads := fun text =>
    if String.eqb text "<service tags>"
    then Ok (PDict [("values", PList [PDict [("id", PStr "AzureFrontDoor.Frontend")]])])
    else json_loads (healthy eleven_v4) text;
  soup_find := soup_find (healthy eleven_v4)
|}.

(** The healthy world, but the landing page answers 503. *)
Definition page_down : Env := {|
  acquire_token_for_client := acquire_token_for_client (healthy eleven_v4);
  requests_get := fun url hdrs =>
    if String.eqb url page then Ok {| status_code := 503; content := "" |}
    else requests_get (healthy eleven_v4) url hdrs;
  requests_put := requests_put (healthy eleven_v4);
  json_loads := json_loads (healthy eleven_v4);
  soup_find := soup_find (healthy eleven_v4)
|}.

(** The settings with a threshold below zero. *)
Definition settings_negative_threshold : Settings := {|
  application_id := application_id settings;
  application_secret := application_secret settings;
  tenant_id := tenant_id settings;
  subscription_id := subscription_id settings;
  resource_group_name := resource_group_name settings;
  ip_group_name := ip_group_name settings;
  minimum_acceptable_v4_networks := -1
|}.

Definition token_without_description : result (list (string * string)) :=
  Ok [("error", "invalid_client")].

(** How the parser of [main] answers the command lines of the examples: no
    argument, [--dry-run], the help options, and an unknown option, which
    argparse refuses with status 2.  It is a stand-in for these command
    lines only (argparse also accepts abbreviations of an option, for
    one). *)
Definition parse_args (argv : list string) : outcome bool :=
  match argv with
  | [] => Return false
  | [arg] =>
      if String.eqb arg "--dry-run" then Return true
      else if String.eqb arg "--help" || String.eqb arg "-h" then SystemExit 0
      else SystemExit 2
  | _ => SystemExit 2
  end.

End Demo.

(** ** The trace monad *)

Section Frames.

Context {A B : Type}.

Lemma framed_ret (a : A) : framed (ret a).
Proof. intros t. unfold ret. simpl. now rewrite app_nil_r. Qed.

Lemma framed_raise (e : exn) : framed (@raise A e).
Proof. intros t. unfold raise. simpl. now rewrite app_nil_r. Qed.

Lemma framed_exit (code : Z) : framed (@exit A code).
Proof. intros t. unfold exit. simpl. now rewrite app_nil_r. Qed.

Lemma framed_lift (r : result A) : framed (lift r).
Proof. destruct r; [apply framed_ret | apply framed_raise]. Qed.

Lemma framed_bind (m : M A) (k : A -> M B) :
  framed m -> (forall a, framed (k a)) -> framed (bind m k).
Proof.
  intros Hm Hk t. unfold bind.
  rewrite (Hm t).
  destruct (m []) as [[a | e | code] d] eqn:E; simpl.
  - rewrite (Hk a (t ++ d)), (Hk a d). simpl. now rewrite app_assoc.
  - reflexivity.
  - reflexivity.
Qed.

Lemma framed_try (body : M A) (handler : exn -> M A) :
  framed body -> (forall e, framed (handler e)) ->
  framed (try_except_Exception body handler).
Proof.
  intros Hb Hh t. unfold try_except_Exception.
  rewrite (Hb t).
  destruct (body []) as [[a | e | code] d] eqn:E; simpl.
  - reflexivity.
  - rewrite (Hh e (t ++ d)), (Hh e d). simpl. now rewrite app_assoc.
  - reflexivity.
Qed.

End Frames.

Lemma framed_emit (ev : event) : framed (emit ev).
Proof. intros t. reflexivity. Qed.

Lemma framed_log_warning msg extra exc_info : framed (log_warning msg extra exc_info).
Proof. apply framed_emit. Qed.

Lemma framed_raise_for_status resp : framed (raise_for_status resp).
Proof.
  unfold raise_for_status.
  destruct ((400 <=? status_code resp) && (status_code resp <? 600));
    [apply framed_raise | apply framed_ret].
Qed.

Create HintDb frames.
#[export] Hint Resolve framed_ret framed_raise framed_exit framed_lift framed_emit
  framed_log_warning framed_raise_for_status : frames.

(** Splits a computation into its steps and frames each. *)
Ltac frame_steps :=
  repeat first
    [ apply framed_bind; [ | intros ? ]
    | apply framed_try; [ | intros ? ]
    | solve [ auto with frames ]
    | match goal with
      | |- framed (if ?b then _ else _) => destruct b
      | |- framed (match ?x with _ => _ end) => destruct x
      end ].

(** ** Classification *)

(** The loop raises the first parse error, or returns the accumulators
    extended by the IPv4 and the IPv6 elements; it logs nothing. *)
Lemma _filter_ip_versions_loop_spec networks :
  forall v4 v6 t,
    _filter_ip_versions_loop networks v4 v6 t =
    match first_error networks with
    | Some e => (Raise e, t)
    | None => (Return (v4 ++ filter is_ipv4 networks, v6 ++ filter is_ipv6 networks), t)
    end.
Proof.
  induction networks as [ | network rest IH ]; intros v4 v6 t; simpl.
  - unfold ret. now rewrite !app_nil_r.
  - unfold bind, lift, ret, raise, log_warning, is_ipv4, is_ipv6.
    destruct (ipaddress.ip_network network) as [ [ a p | a p sc ] | e ];
      simpl; [ | | reflexivity ];
      rewrite IH; destruct (first_error rest);
      solve [ reflexivity | now rewrite <- app_assoc ].
Qed.

Lemma _filter_ip_versions_spec networks t :
  _filter_ip_versions networks t =
  match first_error networks with
  | Some e => (Raise e, t)
  | None =>
      let d := {| ipv4 := filter is_ipv4 networks; ipv6 := filter is_ipv6 networks |} in
      (Return d, t ++ [split_summary d])
  end.
Proof.
  unfold _filter_ip_versions, bind.
  rewrite _filter_ip_versions_loop_spec.
  destruct (first_error networks); reflexivity.
Qed.

Lemma first_error_None_parses networks :
  first_error networks = None ->
  forall x, In x networks -> is_ipv4 x = true \/ is_ipv6 x = true.
Proof.
  induction networks as [ | network rest IH ]; simpl; [ contradiction | ].
  intros H x [ <- | Hin ].
  - unfold is_ipv4, is_ipv6.
    destruct (ipaddress.ip_network network) as [ [ | ] | ]; simpl; auto.
    discriminate.
  - destruct (ipaddress.ip_network network); [ now apply IH | discriminate ].
Qed.

Lemma first_error_None_partition networks :
  first_error networks = None ->
  (List.length (filter is_ipv4 networks) + List.length (filter is_ipv6 networks)
   = List.length networks)%nat.
Proof.
  induction networks as [ | network rest IH ]; simpl; [ reflexivity | ].
  unfold is_ipv4 at 1, is_ipv6 at 1.
  destruct (ipaddress.ip_network network) as [ [ | ] | ]; simpl; intros H;
    try discriminate; specialize (IH H); lia.
Qed.

Lemma filter_subsequence {X : Type} (f : X -> bool) (l : list X) :
  subsequence (filter f l) l.
Proof.
  induction l as [ | x l IH ]; simpl.
  - constructor.
  - destruct (f x); now constructor.
Qed.

(** C1 (the code at the claim's own example).  On the list
    [["10.0.0.0/8", "2001:db8::/32", "not-an-ip"]] the first element is an
    IPv4 network and the second an IPv6 network, but [ip_network] raises
    [ValueError] on the third: [_filter_ip_versions] does not return the two
    buckets, it raises, and it has logged nothing (neither the warning for
    the offending value nor the summary). *)
Theorem classify_example_raises :
  is_ipv4 (PStr "10.0.0.0/8") = true /\
  is_ipv6 (PStr "2001:db8::/32") = true /\
  ipaddress.ip_network (PStr "not-an-ip") = Err ValueError /\
  _filter_ip_versions Demo.mixed [] = (Raise ValueError, []).
Proof. repeat split; vm_compute; reflexivity. Qed.

(** C8.  Whenever [_filter_ip_versions] returns, the v4 bucket is the input
    restricted to its IPv4 elements and the v6 bucket the input restricted
    to its IPv6 elements, each in the order of the input: both buckets are
    subsequences of the source list, nothing is sorted or moved. *)
Theorem buckets_keep_source_order :
  forall networks t d t',
    _filter_ip_versions networks t = (Return d, t') ->
    ipv4 d = filter is_ipv4 networks /\
    ipv6 d = filter is_ipv6 networks /\
    subsequence (ipv4 d) networks /\
    subsequence (ipv6 d) networks.
Proof.
  intros networks t d t' H.
  rewrite _filter_ip_versions_spec in H.
  destruct (first_error networks); [ discriminate | ].
  injection H as <- _. simpl.
  repeat split; auto using filter_subsequence.
Qed.

Lemma buckets_keep_source_order_witness :
  let d := {| ipv4 := [PStr "192.168.0.0/16"; PStr "10.0.0.0/8"];
              ipv6 := [PStr "2001:db8::/32"; PStr "2a01:111::/32"] |} in
  ipv4 d = filter is_ipv4 Demo.interleaved /\
  ipv6 d = filter is_ipv6 Demo.interleaved /\
  subsequence (ipv4 d) Demo.interleaved /\
  subsequence (ipv6 d) Demo.interleaved.
Proof.
  intros d.
  apply (buckets_keep_source_order Demo.interleaved [] d [split_summary d]).
  vm_compute. reflexivity.
Defined.

(** C10.  The branch that logs "Unknown Network Detected" is never taken.
    Whenever [_filter_ip_versions] returns, the only record it has added is
    the summary, every element of the input is in the v4 or in the v6
    bucket, and the two buckets together are as long as the input; and
    however the call ends, the trace holds an "Unknown Network Detected"
    warning only if it held one before the call. *)
Theorem unknown_network_branch_unreachable :
  forall networks t,
    (forall d t',
        _filter_ip_versions networks t = (Return d, t') ->
        t' = t ++ [split_summary d] /\
        (forall x, In x networks -> In x (ipv4 d) \/ In x (ipv6 d)) /\
        (List.length (ipv4 d) + List.length (ipv6 d) = List.length networks)%nat) /\
    existsb is_unknown_network_warning (snd (_filter_ip_versions networks t))
    = existsb is_unknown_network_warning t.
Proof.
  intros networks t. rewrite _filter_ip_versions_spec.
  destruct (first_error networks) as [ e | ] eqn:E; split.
  - discriminate.
  - reflexivity.
  - intros d t' H. injection H as <- <-. simpl. repeat split.
    + intros x Hin.
      destruct (first_error_None_parses networks E x Hin) as [ H4 | H6 ];
        [ left | right ]; apply filter_In; auto.
    + now apply first_error_None_partition.
  - simpl. rewrite existsb_app. simpl. now rewrite !orb_false_r.
Qed.

Lemma unknown_network_branch_unreachable_witness :
  let d := {| ipv4 := [PStr "192.168.0.0/16"; PStr "10.0.0.0/8"];
              ipv6 := [PStr "2001:db8::/32"; PStr "2a01:111::/32"] |} in
  (forall x, In x Demo.interleaved -> In x (ipv4 d) \/ In x (ipv6 d)) /\
  (List.length (ipv4 d) + List.length (ipv6 d) = List.length Demo.interleaved)%nat.
Proof.
  intros d.
  apply (proj1 (unknown_network_branch_unreachable Demo.interleaved []) d [split_summary d]).
  vm_compute. reflexivity.
Defined.

(** ** The reconciler *)

Lemma framed_http_get env url hdrs : framed (http_get env url hdrs).
Proof. unfold http_get. frame_steps. Qed.

Lemma framed_http_put env url hdrs body : framed (http_put env url hdrs body).
Proof. unfold http_put. frame_steps. Qed.

#[export] Hint Resolve framed_http_get framed_http_put : frames.

Lemma framed_update_azure_ip_group env settings auth_token addresses dry_run :
  framed (update_azure_ip_group env settings auth_token addresses dry_run).
Proof.
  unfold update_azure_ip_group, update_azure_ip_group_try. frame_steps.
Qed.

(** What the reconciler does once the read went well. *)
Lemma update_after_read env settings auth_token addresses dry_run t
      ipAddresses tags location :
  ip_group_reads env settings auth_token ipAddresses tags location ->
  update_azure_ip_group env settings auth_token addresses dry_run t =
  (Return tt,
   t ++ [HttpGet (resource_url settings) (bearer_headers auth_token);
         LogWarning "Successfully pulled existing resource metadata"
                    [("addresses"%string, ipAddresses); ("tags"%string, tags);
                     ("location"%string, location)] None]
     ++ (if dry_run
         then [LogWarning "Dry Run mode enabled, skipping actual update" [] None]
         else [LogWarning "Submitting new list of IPs to Azure API"
                          [("ips"%string, PList addresses)] None;
               HttpPut (resource_url settings) (bearer_headers auth_token)
                       (put_body tags location addresses);
               match put_failure env settings auth_token
                                 (put_body tags location addresses) with
               | Some e => LogWarning "Something went wrong" [] (Some e)
               | None =>
                   LogWarning "Successfully updated IP Group with latest set of networks"
                              [] None
               end])).
Proof.
  intros (resp & md & props & Hget & Hjson & Hprops & Hips & Htags & Hloc).
  unfold update_azure_ip_group, update_azure_ip_group_try, try_except_Exception,
    http_get, http_put, raise_for_status, put_failure, put_body, log_warning,
    bind, lift, emit, ret, raise.
  rewrite Hget, Hjson, Hprops, Hips, Htags, Hloc.
  destruct dry_run.
  - now rewrite <- !app_assoc.
  - destruct (requests_put env _ _ _) as [ update_group | e ].
    + destruct ((400 <=? status_code update_group) && (status_code update_group <? 600));
        now rewrite <- !app_assoc.
    + now rewrite <- !app_assoc.
Qed.

(** A read that raises ends the reconciler at once. *)
Lemma update_read_raises env settings auth_token addresses dry_run t e :
  requests_get env (resource_url settings) (bearer_headers auth_token) = Err e ->
  update_azure_ip_group env settings auth_token addresses dry_run t =
  (Raise e, t ++ [HttpGet (resource_url settings) (bearer_headers auth_token)]).
Proof.
  intros Hget.
  unfold update_azure_ip_group, http_get, bind, lift, emit, raise.
  now rewrite Hget.
Qed.

(** The read is the first thing the reconciler does, whatever follows. *)
Lemma update_starts_with_read env settings auth_token addresses dry_run t :
  exists o rest,
    update_azure_ip_group env settings auth_token addresses dry_run t =
    (o, t ++ HttpGet (resource_url settings) (bearer_headers auth_token) :: rest).
Proof.
  unfold update_azure_ip_group.
  match goal with
  | |- context [ bind (http_get _ _ _) ?k ] => set (K := k)
  end.
  assert (HK : forall resp, framed (K resp))
    by (intros resp; unfold K, update_azure_ip_group_try; frame_steps).
  unfold http_get, bind, emit, lift, ret, raise.
  destruct (requests_get env (resource_url settings) (bearer_headers auth_token))
    as [ resp | e ].
  - rewrite (HK resp). rewrite <- app_assoc. simpl. eauto.
  - eauto.
Qed.

Lemma http_events_app t1 t2 : http_events (t1 ++ t2) = http_events t1 ++ http_events t2.
Proof. apply filter_app. Qed.

Lemma put_requests_app t1 t2 : put_requests (t1 ++ t2) = put_requests t1 ++ put_requests t2.
Proof. apply filter_app. Qed.

(** In dry-run mode the read is the one request of the reconciler, however
    the read ends. *)
Lemma dry_run_http_events env settings auth_token addresses t :
  http_events (snd (update_azure_ip_group env settings auth_token addresses true t))
  = http_events t ++ [HttpGet (resource_url settings) (bearer_headers auth_token)].
Proof.
  unfold update_azure_ip_group, http_get, log_warning, bind, lift, emit, ret, raise.
  repeat match goal with
         | |- context [ match ?r with Ok _ => _ | Err _ => _ end ] => destruct r
         end;
    simpl; rewrite ?http_events_app; simpl; now rewrite ?app_nil_r.
Qed.

(** C3.  When the read of the IP group returned a resource with tags
    [tags] and location [location], the one write of the reconciler sends
    exactly these tags and this location, and the address list it was
    handed as [ipAddresses]; the address list read is not sent.  (On the
    claim's example: tags [{"env": "prod"}], location ["eastus"] and the new
    addresses [["5.6.7.0/24"]] go out as they are.) *)
Theorem update_carries_tags_and_location :
  forall env settings auth_token addresses t ipAddresses tags location,
    ip_group_reads env settings auth_token ipAddresses tags location ->
    put_requests (snd (update_azure_ip_group env settings auth_token addresses false t))
    = put_requests t
      ++ [HttpPut (resource_url settings) (bearer_headers auth_token)
                  (PDict [("tags"%string, tags);
                          ("location"%string, location);
                          ("properties"%string,
                           PDict [("ipAddresses"%string, PList addresses)])])].
Proof.
  intros env settings auth_token addresses t ipAddresses tags location H.
  rewrite (update_after_read _ _ _ _ _ _ _ _ _ H). simpl.
  rewrite put_requests_app. unfold put_requests at 2. simpl.
  destruct (put_failure _ _ _ _); reflexivity.
Qed.

Lemma update_carries_tags_and_location_witness :
  put_requests
    (snd (update_azure_ip_group (Demo.healthy Demo.eleven_v4) Demo.settings "eyJ0-token"
                                [PStr "5.6.7.0/24"] false []))
  = [HttpPut (resource_url Demo.settings) (bearer_headers "eyJ0-token")
             (PDict [("tags"%string, PDict [("env"%string, PStr "prod")]);
                     ("location"%string, PStr "eastus");
                     ("properties"%string,
                      PDict [("ipAddresses"%string, PList [PStr "5.6.7.0/24"])])])].
Proof.
  apply (update_carries_tags_and_location
           (Demo.healthy Demo.eleven_v4) Demo.settings "eyJ0-token" [PStr "5.6.7.0/24"] []
           (PList [PStr "1.2.3.0/24"]) (PDict [("env"%string, PStr "prod")]) (PStr "eastus")).
  exists Demo.ip_group_body, Demo.existing_resource,
    (PDict [("ipAddresses"%string, PList [PStr "1.2.3.0/24"])]).
  repeat split; reflexivity.
Defined.

(** C5.  With [dry_run = true] the requests of the reconciler are the GET
    of the IP group and nothing else, for every address list and however
    the read ends.  With [dry_run = false], for every address list and
    every resource the read returns, the requests are that GET and then the
    PUT, in this order. *)
Theorem dry_run_reads_but_never_writes :
  forall env settings auth_token addresses t,
    http_events (snd (update_azure_ip_group env settings auth_token addresses true t))
    = http_events t ++ [HttpGet (resource_url settings) (bearer_headers auth_token)]
    /\
    (forall ipAddresses tags location,
        ip_group_reads env settings auth_token ipAddresses tags location ->
        http_events (snd (update_azure_ip_group env settings auth_token addresses false t))
        = http_events t
          ++ [HttpGet (resource_url settings) (bearer_headers auth_token);
              HttpPut (resource_url settings) (bearer_headers auth_token)
                      (put_body tags location addresses)]).
Proof.
  intros env settings auth_token addresses t. split.
  - apply dry_run_http_events.
  - intros ipAddresses tags location H.
    rewrite (update_after_read _ _ _ _ _ _ _ _ _ H). simpl.
    rewrite http_events_app. unfold http_events at 2. simpl.
    destruct (put_failure _ _ _ _); reflexivity.
Qed.

Lemma dry_run_reads_but_never_writes_witness :
  http_events
    (snd (update_azure_ip_group (Demo.healthy Demo.eleven_v4) Demo.settings "eyJ0-token"
                                Demo.eleven_v4 false []))
  = [HttpGet (resource_url Demo.settings) (bearer_headers "eyJ0-token");
     HttpPut (resource_url Demo.settings) (bearer_headers "eyJ0-token")
             (put_body (PDict [("env"%string, PStr "prod")]) (PStr "eastus") Demo.eleven_v4)].
Proof.
  apply (proj2 (dry_run_reads_but_never_writes
                  (Demo.healthy Demo.eleven_v4) Demo.settings "eyJ0-token" Demo.eleven_v4 [])
               (PList [PStr "1.2.3.0/24"])).
  exists Demo.ip_group_body, Demo.existing_resource,
    (PDict [("ipAddresses"%string, PList [PStr "1.2.3.0/24"])]).
  repeat split; reflexivity.
Defined.

(** ** The orchestrator *)

Lemma main_unfold env settings args_dry_run :
  main_after_parse_args env settings args_dry_run =
  bind (_get_auth_token env settings)
       (fun auth_token =>
          bind (_get_frontdoor_ips env)
               (fun frontdoor_ips =>
                  main_classify_and_update env settings auth_token frontdoor_ips
                                           args_dry_run)).
Proof. destruct args_dry_run; reflexivity. Qed.

(** After the classification the run is the validation and what it lets
    through. *)
Lemma run_after_classification env settings args_dry_run auth_token d t :
  classifies env settings auth_token d t ->
  run env settings args_dry_run =
  if Z.of_nat (List.length (ipv4 d)) >? minimum_acceptable_v4_networks settings
  then update_azure_ip_group env settings auth_token (ipv4 d) args_dry_run t
  else (SystemExit 1, t ++ [below_threshold_warning settings]).
Proof.
  intros (t_auth & ips & t_fetch & Hauth & Hfetch & Hfilter).
  unfold run. rewrite main_unfold.
  unfold main_classify_and_update, bind. rewrite Hauth, Hfetch, Hfilter.
  destruct (Z.of_nat (List.length (ipv4 d)) >? minimum_acceptable_v4_networks settings);
    reflexivity.
Qed.

(** C4.  Once the list is classified: if the v4 bucket has no more entries
    than the threshold, the run adds one record to the trace, the warning
    that names the threshold, and exits with status 1, so that no request
    goes to the IP group after the classification; if it has more entries
    than the threshold, the rest of the run is the reconciler, which starts
    with the GET of the IP group. *)
Theorem validation_gates_the_update :
  forall env settings args_dry_run auth_token d t,
    classifies env settings auth_token d t ->
    (Z.of_nat (List.length (ipv4 d)) <= minimum_acceptable_v4_networks settings ->
     run env settings args_dry_run = (SystemExit 1, t ++ [below_threshold_warning settings]) /\
     exit_status (fst (run env settings args_dry_run)) = 1 /\
     http_events (snd (run env settings args_dry_run)) = http_events t)
    /\
    (Z.of_nat (List.length (ipv4 d)) > minimum_acceptable_v4_networks settings ->
     run env settings args_dry_run
     = update_azure_ip_group env settings auth_token (ipv4 d) args_dry_run t /\
     exists o rest,
       run env settings args_dry_run
       = (o, t ++ HttpGet (resource_url settings) (bearer_headers auth_token) :: rest)).
Proof.
  intros env settings a auth_token d t H.
  rewrite (run_after_classification _ _ a _ _ _ H).
  split; intros Hlen.
  - rewrite Z.gtb_ltb. rewrite (proj2 (Z.ltb_ge _ _) Hlen).
    simpl. repeat split.
    rewrite http_events_app. simpl. apply app_nil_r.
  - rewrite Z.gtb_ltb. rewrite (proj2 (Z.ltb_lt _ _) (Z.gt_lt _ _ Hlen)).
    split; [ reflexivity | apply update_starts_with_read ].
Qed.

Lemma validation_gates_the_update_witness :
  (run (Demo.healthy Demo.ten_v4) Demo.settings false
   = (SystemExit 1,
      Demo.classified_trace (Demo.healthy Demo.ten_v4) Demo.ten_v4
        ++ [LogWarning "Less than 10 IPv4 Networks detected, cowardly exiting" [] None]) /\
   exit_status (fst (run (Demo.healthy Demo.ten_v4) Demo.settings false)) = 1 /\
   http_events (snd (run (Demo.healthy Demo.ten_v4) Demo.settings false))
   = http_events (Demo.classified_trace (Demo.healthy Demo.ten_v4) Demo.ten_v4))
  /\
  (run (Demo.healthy Demo.eleven_v4) Demo.settings false
   = update_azure_ip_group (Demo.healthy Demo.eleven_v4) Demo.settings "eyJ0-token"
                           Demo.eleven_v4 false
                           (Demo.classified_trace (Demo.healthy Demo.eleven_v4) Demo.eleven_v4)
   /\ exists o rest,
       run (Demo.healthy Demo.eleven_v4) Demo.settings false
       = (o, Demo.classified_trace (Demo.healthy Demo.eleven_v4) Demo.eleven_v4
               ++ HttpGet (resource_url Demo.settings) (bearer_headers "eyJ0-token")
               :: rest)).
Proof.
  split.
  - apply (proj1 (validation_gates_the_update
                    (Demo.healthy Demo.ten_v4) Demo.settings false "eyJ0-token"
                    {| ipv4 := Demo.ten_v4; ipv6 := [] |}
                    (Demo.classified_trace (Demo.healthy Demo.ten_v4) Demo.ten_v4)
                    ltac:(do 3 eexists; repeat split; vm_compute; reflexivity))).
    vm_compute. discriminate.
  - apply (proj2 (validation_gates_the_update
                    (Demo.healthy Demo.eleven_v4) Demo.settings false "eyJ0-token"
                    {| ipv4 := Demo.eleven_v4; ipv6 := [] |}
                    (Demo.classified_trace (Demo.healthy Demo.eleven_v4) Demo.eleven_v4)
                    ltac:(do 3 eexists; repeat split; vm_compute; reflexivity))).
    vm_compute. reflexivity.
Defined.

(** C2 as stated fails.  In the sample world a token is issued and eleven
    IPv4 prefixes are fetched against the threshold 10, but the GET of the
    IP group raises a connection error: the exception leaves [main], the
    exit status is 1 and not 0, and the last thing on the trace is that GET,
    no record of the failure. *)
Lemma read_failure_reaches_the_exit_status :
  let world := Demo.env Demo.good_token Demo.eleven_v4 Demo.connection_error Demo.ok_response in
  requests_get world (resource_url Demo.settings) (bearer_headers "eyJ0-token")
  = Err (LibraryError "ConnectionError") /\
  fst (run world Demo.settings false) = Raise (LibraryError "ConnectionError") /\
  exit_status (fst (run world Demo.settings false)) = 1 /\
  last (snd (run world Demo.settings false)) (LogWarning "" [] None)
  = HttpGet (resource_url Demo.settings) (bearer_headers "eyJ0-token").
Proof. repeat split; vm_compute; reflexivity. Qed.

(** C2 as amended.  In a run that passed the validation: when the read of
    the IP group went well and the write fails (the request raises, or the
    answer has a client or server error status), the failure is logged with
    its exception as the last record and the run ends with exit status 0;
    when the read raises, the exception leaves the run right after the GET,
    unlogged, and the exit status is 1. *)
Theorem write_failure_absorbed_read_failure_fatal :
  forall env settings auth_token d t,
    classifies env settings auth_token d t ->
    Z.of_nat (List.length (ipv4 d)) > minimum_acceptable_v4_networks settings ->
    (forall ipAddresses tags location e,
        ip_group_reads env settings auth_token ipAddresses tags location ->
        put_failure env settings auth_token (put_body tags location (ipv4 d)) = Some e ->
        exit_status (fst (run env settings false)) = 0 /\
        exists t',
          run env settings false
          = (Return tt, t' ++ [LogWarning "Something went wrong" [] (Some e)]))
    /\
    (forall args_dry_run e,
        requests_get env (resource_url settings) (bearer_headers auth_token) = Err e ->
        exit_status (fst (run env settings args_dry_run)) = 1 /\
        run env settings args_dry_run
        = (Raise e, t ++ [HttpGet (resource_url settings) (bearer_headers auth_token)])).
Proof.
  intros env settings auth_token d t Hc Hlen.
  assert (Hup : forall a, run env settings a
                          = update_azure_ip_group env settings auth_token (ipv4 d) a t).
  { intros a. rewrite (run_after_classification _ _ a _ _ _ Hc).
    rewrite Z.gtb_ltb. now rewrite (proj2 (Z.ltb_lt _ _) (Z.gt_lt _ _ Hlen)). }
  split.
  - intros ipAddresses tags location e Hread Hput.
    rewrite Hup, (update_after_read _ _ _ _ _ _ _ _ _ Hread). simpl. rewrite Hput.
    split; [ reflexivity | ].
    eexists.
    change (?a :: ?b :: ?c :: ?d :: [?x]) with ([a; b; c; d] ++ [x]).
    now rewrite app_assoc.
  - intros a e Hget.
    rewrite Hup, (update_read_raises _ _ _ _ _ _ _ Hget). split; reflexivity.
Qed.

Lemma write_failure_absorbed_read_failure_fatal_witness :
  let world := Demo.env Demo.good_token Demo.eleven_v4 Demo.ok_response Demo.conflict_response in
  exit_status (fst (run world Demo.settings false)) = 0 /\
  exists t',
    run world Demo.settings false
    = (Return tt, t' ++ [LogWarning "Something went wrong" [] (Some (HTTPError 409))]).
Proof.
  intros world.
  apply (proj1 (write_failure_absorbed_read_failure_fatal
                  world Demo.settings "eyJ0-token"
                  {| ipv4 := Demo.eleven_v4; ipv6 := [] |}
                  (Demo.classified_trace world Demo.eleven_v4)
                  ltac:(do 3 eexists; repeat split; vm_compute; reflexivity)
                  ltac:(vm_compute; reflexivity))
               (PList [PStr "1.2.3.0/24"]) (PDict [("env"%string, PStr "prod")])
               (PStr "eastus")).
  - exists Demo.ip_group_body, Demo.existing_resource,
      (PDict [("ipAddresses"%string, PList [PStr "1.2.3.0/24"])]).
    repeat split; reflexivity.
  - vm_compute. reflexivity.
Defined.

(** C6.  When the identity provider's answer has no [access_token] and
    carries [error] and [error_description], the whole run is the token
    request and one record, "Failed to get auth token" with the provider's
    error and description, and it ends with exit status 1: nothing is
    fetched or reconciled.  When the answer has an [access_token],
    [_get_auth_token] returns that string. *)
Theorem auth_failure_is_terminal :
  forall env settings token,
    let authority := ("https://login.microsoftonline.com/" ++ tenant_id settings)%string in
    let scopes := ["https://management.core.windows.net//.default"%string] in
    let request :=
      AcquireToken (application_id settings) (application_secret settings) authority scopes in
    acquire_token_for_client env (application_id settings) (application_secret settings)
                             authority scopes = Ok token ->
    (forall args_dry_run error error_description,
        contains "access_token" token = false ->
        lookup "error" token = Some error ->
        lookup "error_description" token = Some error_description ->
        run env settings args_dry_run
        = (SystemExit 1,
           [request;
            LogWarning "Failed to get auth token"
                       [("error"%string, PStr error);
                        ("error_description"%string, PStr error_description)] None]) /\
        exit_status (fst (run env settings args_dry_run)) = 1)
    /\
    (forall access_token t,
        lookup "access_token" token = Some access_token ->
        _get_auth_token env settings t = (Return access_token, t ++ [request])).
Proof.
  intros env settings token authority scopes request Htoken. split.
  - intros a error error_description Hno Herr Hdesc.
    unfold run. rewrite main_unfold.
    unfold bind at 1. unfold _get_auth_token, token_getitem, log_warning.
    unfold bind, lift, emit, ret, raise, exit.
    fold authority. fold scopes. rewrite Htoken, Hno, Herr, Hdesc. simpl.
    split; reflexivity.
  - intros access_token t Hlookup.
    unfold _get_auth_token, token_getitem, bind, lift, emit, ret, raise, contains.
    fold authority. fold scopes. rewrite Htoken, Hlookup. reflexivity.
Qed.

Lemma auth_failure_is_terminal_witness :
  let world := Demo.env Demo.bad_token Demo.eleven_v4 Demo.ok_response Demo.ok_response in
  run world Demo.settings false
  = (SystemExit 1,
     [AcquireToken "0f3c1b2a-app" "s3cret" "https://login.microsoftonline.com/contoso-tenant"
                   ["https://management.core.windows.net//.default"%string];
      LogWarning "Failed to get auth token"
                 [("error"%string, PStr "invalid_client");
                  ("error_description"%string, PStr "bad secret")] None]) /\
  exit_status (fst (run world Demo.settings false)) = 1.
Proof.
  intros world.
  apply (proj1 (auth_failure_is_terminal
                  world Demo.settings
                  [("error"%string, "invalid_client"%string);
                   ("error_description"%string, "bad secret"%string)]
                  eq_refl)
               false "invalid_client"%string "bad secret"%string);
    reflexivity.
Defined.

(** C9.  Take two fetched lists whose classifications return the same v4
    bucket, whatever their v6 buckets.  The validation decides the same way
    for both, and from the summary record of the classification on the two
    runs end with the same outcome, hence the same exit status, and add the
    same records and requests to their traces: those of the reconciler
    called with the v4 bucket, or the warning of the validation. *)
Theorem ipv6_bucket_never_influences_outcome :
  forall env settings auth_token dry_run ips1 ips2 t1 t2 d1 d2 t1' t2',
    _filter_ip_versions ips1 t1 = (Return d1, t1') ->
    _filter_ip_versions ips2 t2 = (Return d2, t2') ->
    ipv4 d1 = ipv4 d2 ->
    let passes (d : ip_versions) :=
      Z.of_nat (List.length (ipv4 d)) >? minimum_acceptable_v4_networks settings in
    passes d1 = passes d2 /\
    exists o added,
      main_classify_and_update env settings auth_token ips1 dry_run t1 = (o, t1' ++ added) /\
      main_classify_and_update env settings auth_token ips2 dry_run t2 = (o, t2' ++ added) /\
      exit_status o
      = exit_status (fst (main_classify_and_update env settings auth_token ips2 dry_run t2)) /\
      added = if passes d1
              then snd (update_azure_ip_group env settings auth_token (ipv4 d1) dry_run [])
              else [below_threshold_warning settings].
Proof.
  intros env settings auth_token dry_run ips1 ips2 t1 t2 d1 d2 t1' t2' H1 H2 Heq passes.
  unfold passes. rewrite <- Heq. split; [ reflexivity | ].
  unfold main_classify_and_update, bind. rewrite H1, H2, <- Heq.
  destruct (Z.of_nat (List.length (ipv4 d1)) >? minimum_acceptable_v4_networks settings).
  - rewrite (framed_update_azure_ip_group env settings auth_token (ipv4 d1) dry_run t1').
    rewrite (framed_update_azure_ip_group env settings auth_token (ipv4 d1) dry_run t2').
    do 2 eexists. repeat split.
  - exists (SystemExit 1), [below_threshold_warning settings]. repeat split.
Qed.

Lemma ipv6_bucket_never_influences_outcome_witness :
  let world := Demo.healthy Demo.eleven_v4 in
  let with_v6 := Demo.eleven_v4 ++ [PStr "2001:db8::/32"; PStr "2a01:111::/32"] in
  exists o added,
    main_classify_and_update world Demo.settings "eyJ0-token" Demo.eleven_v4 false []
    = (o, [split_summary {| ipv4 := Demo.eleven_v4; ipv6 := [] |}] ++ added) /\
    main_classify_and_update world Demo.settings "eyJ0-token" with_v6 false []
    = (o, [split_summary {| ipv4 := Demo.eleven_v4;
                            ipv6 := [PStr "2001:db8::/32"; PStr "2a01:111::/32"] |}]
            ++ added) /\
    exit_status o
    = exit_status (fst (main_classify_and_update world Demo.settings "eyJ0-token"
                                                 with_v6 false [])) /\
    added = snd (update_azure_ip_group world Demo.settings "eyJ0-token"
                                       Demo.eleven_v4 false []).
Proof.
  intros world with_v6.
  apply (proj2 (ipv6_bucket_never_influences_outcome
                  world Demo.settings "eyJ0-token" false Demo.eleven_v4 with_v6 [] []
                  {| ipv4 := Demo.eleven_v4; ipv6 := [] |}
                  {| ipv4 := Demo.eleven_v4;
                     ipv6 := [PStr "2001:db8::/32"; PStr "2a01:111::/32"] |}
                  _ _
                  ltac:(vm_compute; reflexivity) ltac:(vm_compute; reflexivity) eq_refl)).
Defined.

(** ** The fetcher *)


(** Whatever the body of the [try] raises is logged and ends the run. *)
Lemma fetch_handler env t e t' :
  _get_frontdoor_ips_try env t = (Raise e, t') ->
  _get_frontdoor_ips env t = (SystemExit 1, t' ++ [fetch_failure_warning e]).
Proof.
  intros H.
  unfold _get_frontdoor_ips, try_except_Exception, bind at 1.
  now rewrite H.
Qed.


Lemma fetch_try_no_anchor env t resp :
  fetches_page env resp ->
  soup_find env (content resp) "a" [("data-bi-id"%string, "downloadretry"%string)] = None ->
  _get_frontdoor_ips_try env t = (Raise AttributeError, t ++ [HttpGet page headers]).
Proof.
  intros (Hget & Hstatus) Hfind.
  unfold _get_frontdoor_ips_try, http_get, raise_for_status, bind, emit, lift, ret, raise.
  now rewrite Hget, Hstatus, Hfind.
Qed.

Lemma fetch_try_payload env t resp href :
  fetches_page env resp ->
  finds_link env resp href ->
  _get_frontdoor_ips_try env t =
  match requests_get env href headers with
  | Err e => (Raise e, t ++ [HttpGet page headers; HttpGet href headers])
  | Ok file_resp =>
      match
        (data <- json_loads env (content file_resp) ;;
         values <- getitem data "values" ;;
         sections <- iterate values ;;
         next_section "AzureFrontDoor.Frontend" sections)%result
      with
      | Err e => (Raise e, t ++ [HttpGet page headers; HttpGet href headers])
      | Ok frontdoor => (Return frontdoor, t ++ [HttpGet page headers; HttpGet href headers])
      end
  end.
Proof.
  intros (Hget & Hstatus) (attrs & Hfind & Hhref).
  unfold _get_frontdoor_ips_try, http_get, raise_for_status, bind, emit, lift, ret, raise.
  rewrite Hget, Hstatus, Hfind, Hhref. rewrite <- app_assoc. simpl.
  destruct (requests_get env href headers) as [ file_resp | e ]; [ | reflexivity ].
  unfold rbind.
  destruct (json_loads env (content file_resp)) as [ data | e ]; [ | reflexivity ].
  destruct (getitem data "values") as [ values | e ]; [ | reflexivity ].
  destruct (iterate values) as [ sections | e ]; [ | reflexivity ].
  destruct (next_section "AzureFrontDoor.Frontend" sections); reflexivity.
Qed.




(** ** Further properties of the classification *)

Lemma first_error_Some networks e :
  first_error networks = Some e ->
  exists good bad rest,
    networks = good ++ bad :: rest /\
    ipaddress.ip_network bad = Err e /\
    Forall (fun x => is_ipv4 x = true \/ is_ipv6 x = true) good.
Proof.
  induction networks as [ | network rest IH ]; simpl; [ discriminate | ].
  destruct (ipaddress.ip_network network) as [ n | e0 ] eqn:E.
  - intros H. destruct (IH H) as (good & bad & rest' & -> & Hbad & Hgood).
    exists (network :: good), bad, rest'. repeat split; auto.
    constructor; auto.
    unfold is_ipv4, is_ipv6. rewrite E. destruct n; auto.
  - intros H. injection H as ->.
    exists [], network, rest. repeat split; auto.
Qed.

Lemma first_error_In networks x e0 :
  In x networks -> ipaddress.ip_network x = Err e0 -> exists e, first_error networks = Some e.
Proof.
  induction networks as [ | network rest IH ]; simpl; [ contradiction | ].
  intros [ -> | Hin ] Hx.
  - rewrite Hx. eauto.
  - destruct (ipaddress.ip_network network); eauto.
Qed.

(** One element that [ip_network] rejects fails the whole batch:
    [_filter_ip_versions] raises and adds nothing to the trace, no bucket is
    returned.  What it raises is the exception of the first rejected
    element, and every element before that one is an IPv4 or an IPv6
    network. *)
Theorem one_rejected_prefix_fails_the_batch :
  forall networks t,
    (forall x e0,
        In x networks -> ipaddress.ip_network x = Err e0 ->
        exists e, _filter_ip_versions networks t = (Raise e, t)) /\
    (forall e t',
        _filter_ip_versions networks t = (Raise e, t') ->
        t' = t /\
        exists good bad rest,
          networks = good ++ bad :: rest /\
          ipaddress.ip_network bad = Err e /\
          Forall (fun x => is_ipv4 x = true \/ is_ipv6 x = true) good) /\
    (forall code, fst (_filter_ip_versions networks t) <> SystemExit code).
Proof.
  intros networks t. rewrite _filter_ip_versions_spec. repeat apply conj.
  - intros x e0 Hin Hx.
    destruct (first_error_In networks x e0 Hin Hx) as (e & ->). eauto.
  - intros e t'. destruct (first_error networks) as [ e1 | ] eqn:E; [ | discriminate ].
    intros H. injection H as <- <-. split; [ reflexivity | ].
    now apply first_error_Some.
  - intros code. destruct (first_error networks); discriminate.
Qed.

Lemma one_rejected_prefix_fails_the_batch_witness :
  exists e,
    _filter_ip_versions
      [PStr "10.0.0.0/8"; PStr "10.0.0.1/8"; PStr "2001:db8::/32"] []
    = (Raise e, []).
Proof.
  apply (proj1 (one_rejected_prefix_fails_the_batch
                  [PStr "10.0.0.0/8"; PStr "10.0.0.1/8"; PStr "2001:db8::/32"] [])
               (PStr "10.0.0.1/8") ValueError).
  - simpl. auto.
  - vm_compute. reflexivity.
Defined.

Lemma filter_partition_permutation networks :
  first_error networks = None ->
  Permutation (filter is_ipv4 networks ++ filter is_ipv6 networks) networks.
Proof.
  induction networks as [ | network rest IH ]; simpl; [ constructor | ].
  unfold is_ipv4 at 1, is_ipv6 at 1.
  destruct (ipaddress.ip_network network) as [ [ a p | a p sc ] | e ]; simpl;
    intros H; try discriminate.
  - constructor. now apply IH.
  - apply Permutation_sym, Permutation_cons_app, Permutation_sym. now apply IH.
Qed.

(** When [_filter_ip_versions] returns, the two buckets together hold the
    elements of the input with their multiplicities: nothing is lost,
    nothing is invented, duplicates are kept, and no element is in both
    buckets. *)
Theorem buckets_partition_the_input :
  forall networks t d t',
    _filter_ip_versions networks t = (Return d, t') ->
    Permutation (ipv4 d ++ ipv6 d) networks /\
    (forall x, In x (ipv4 d) -> ~ In x (ipv6 d)).
Proof.
  intros networks t d t' H. rewrite _filter_ip_versions_spec in H.
  destruct (first_error networks) eqn:E; [ discriminate | ].
  injection H as <- _. simpl. split.
  - now apply filter_partition_permutation.
  - intros x H4 H6. apply filter_In in H4. apply filter_In in H6.
    destruct H4 as [ _ H4 ]. destruct H6 as [ _ H6 ].
    unfold is_ipv4 in H4. unfold is_ipv6 in H6.
    destruct (ipaddress.ip_network x) as [ [ | ] | ]; discriminate.
Qed.

Lemma buckets_partition_the_input_witness :
  let twice := [PStr "10.0.0.0/8"; PStr "2001:db8::/32"; PStr "10.0.0.0/8"] in
  Permutation ([PStr "10.0.0.0/8"; PStr "10.0.0.0/8"] ++ [PStr "2001:db8::/32"]) twice /\
  (forall x, In x [PStr "10.0.0.0/8"; PStr "10.0.0.0/8"] -> ~ In x [PStr "2001:db8::/32"]).
Proof.
  intros twice.
  apply (buckets_partition_the_input
           twice []
           {| ipv4 := [PStr "10.0.0.0/8"; PStr "10.0.0.0/8"]; ipv6 := [PStr "2001:db8::/32"] |}
           [split_summary {| ipv4 := [PStr "10.0.0.0/8"; PStr "10.0.0.0/8"];
                             ipv6 := [PStr "2001:db8::/32"] |}]).
  vm_compute. reflexivity.
Defined.

(** ** Further properties of the fetcher *)

(** The search of line 60 takes the first section with the wanted id: the
    sections before it all carry another id, and the sections after it are
    not looked at.  A section before it that cannot be asked for its id (it
    has no [id], or is not a dict) ends the search with that exception, even
    when a section with the wanted id follows. *)
Theorem next_section_takes_the_first_match :
  forall wanted sections,
    (forall found,
        next_section wanted sections = Ok found ->
        exists before after,
          sections = before ++ found :: after /\
          has_id wanted found /\
          Forall (has_other_id wanted) before) /\
    (forall before found after,
        Forall (has_other_id wanted) before ->
        has_id wanted found ->
        next_section wanted (before ++ found :: after) = Ok found) /\
    (forall before broken after e,
        Forall (has_other_id wanted) before ->
        getitem broken "id" = Err e ->
        next_section wanted (before ++ broken :: after) = Err e).
Proof.
  intros wanted sections. repeat apply conj.
  - induction sections as [ | section rest IH ]; simpl; [ discriminate | ].
    intros found.
    destruct (getitem section "id") as [ id | e ] eqn:Hid; [ | discriminate ].
    destruct (eq_str id wanted) eqn:Heq.
    + intros H. injection H as <-.
      exists [], rest. repeat split; auto. exists id. auto.
    + intros H. destruct (IH found H) as (before & after & -> & Hfound & Hbefore).
      exists (section :: before), after. repeat split; auto.
      constructor; auto. exists id. auto.
  - intros before found after Hbefore (id & Hid & Heq).
    induction Hbefore as [ | b before (idb & Hb & Hne) _ IH ]; simpl.
    + now rewrite Hid, Heq.
    + now rewrite Hb, Hne.
  - intros before broken after e Hbefore Hbroken.
    induction Hbefore as [ | b before (idb & Hb & Hne) _ IH ]; simpl.
    + now rewrite Hbroken.
    + now rewrite Hb, Hne.
Qed.

Lemma next_section_takes_the_first_match_witness :
  next_section "AzureFrontDoor.Frontend"
    ([Demo.section "AzureCloud" []]
       ++ PDict [("name"%string, PStr "AzureFrontDoor.Frontend")]
       :: [Demo.section "AzureFrontDoor.Frontend" Demo.eleven_v4])
  = Err (KeyError "id").
Proof.
  apply (proj2 (proj2 (next_section_takes_the_first_match "AzureFrontDoor.Frontend" []))).
  - constructor; [ | constructor ]. exists (PStr "AzureCloud"). split; reflexivity.
  - reflexivity.
Defined.

(** Line 64 is outside the [try]: when the chain found the section but the
    section has no [properties], no [addressPrefixes] under it, or a value
    there that cannot be iterated, the exception leaves [_get_frontdoor_ips]
    uncaught.  The handler does not run: the failure is not logged and the
    run does not end through [sys.exit]. *)
Theorem section_without_prefixes_is_not_caught :
  forall env t frontdoor t',
    _get_frontdoor_ips_try env t = (Return frontdoor, t') ->
    (forall e,
        getitem frontdoor "properties" = Err e ->
        _get_frontdoor_ips env t = (Raise e, t')) /\
    (forall properties e,
        getitem frontdoor "properties" = Ok properties ->
        getitem properties "addressPrefixes" = Err e ->
        _get_frontdoor_ips env t = (Raise e, t')) /\
    (forall properties addressPrefixes e,
        getitem frontdoor "properties" = Ok properties ->
        getitem properties "addressPrefixes" = Ok addressPrefixes ->
        iterate addressPrefixes = Err e ->
        _get_frontdoor_ips env t = (Raise e, t')).
Proof.
  intros env t frontdoor t' Htry.
  assert (Hrest : _get_frontdoor_ips env t
                  = bind (lift (getitem frontdoor "properties"))
                         (fun properties =>
                            bind (lift (getitem properties "addressPrefixes"))
                                 (fun addressPrefixes => lift (iterate addressPrefixes)))
                         t').
  { unfold _get_frontdoor_ips, try_except_Exception, bind at 1. now rewrite Htry. }
  rewrite Hrest. unfold bind, lift, ret, raise. repeat apply conj.
  - intros e H. now rewrite H.
  - intros properties e H1 H2. now rewrite H1, H2.
  - intros properties addressPrefixes e H1 H2 H3. now rewrite H1, H2, H3.
Qed.

Lemma section_without_prefixes_is_not_caught_witness :
  _get_frontdoor_ips Demo.without_properties []
  = (Raise (KeyError "properties"),
     [HttpGet page headers; HttpGet Demo.download_url headers]).
Proof.
  apply (proj1 (section_without_prefixes_is_not_caught
                  Demo.without_properties []
                  (PDict [("id"%string, PStr "AzureFrontDoor.Frontend")])
                  [HttpGet page headers; HttpGet Demo.download_url headers]
                  eq_refl)).
  reflexivity.
Defined.

(** Once the page is served and its anchor found, the payload is requested
    next, however the rest of the chain ends. *)
Lemma fetch_requests_the_payload env t resp href :
  fetches_page env resp ->
  finds_link env resp href ->
  exists o rest,
    _get_frontdoor_ips env t
    = (o, t ++ HttpGet page headers :: HttpGet href headers :: rest).
Proof.
  intros Hpage Hlink.
  pose proof (fetch_try_payload env t resp href Hpage Hlink) as Htry.
  assert (Hcases :
            (exists e, _get_frontdoor_ips_try env t
                       = (Raise e, t ++ [HttpGet page headers; HttpGet href headers]))
            \/
            (exists frontdoor,
                _get_frontdoor_ips_try env t
                = (Return frontdoor, t ++ [HttpGet page headers; HttpGet href headers]))).
  { rewrite Htry.
    destruct (requests_get env href headers) as [ file_resp | e ]; [ | eauto ].
    match goal with
    | |- context [ match ?r with Ok _ => _ | Err _ => _ end ] => destruct r
    end; eauto. }
  destruct Hcases as [ (e & He) | (frontdoor & Hf) ].
  - rewrite (fetch_handler _ _ _ _ He). rewrite <- app_assoc. simpl. eauto.
  - unfold _get_frontdoor_ips, try_except_Exception, bind at 1. rewrite Hf.
    unfold bind, lift, ret, raise.
    destruct (getitem frontdoor "properties") as [ properties | e ]; [ | eauto ].
    destruct (getitem properties "addressPrefixes") as [ addressPrefixes | e ]; [ | eauto ].
    destruct (iterate addressPrefixes); eauto.
Qed.

(** A client or server error status (400 to 599) of the landing page ends
    the run: the page is the only request, [raise_for_status] raises, the
    handler logs the [HTTPError] and calls [sys.exit(1)].  With any other
    status of the page the chain goes on to the anchor: a page without it
    ends the run with the [AttributeError] logged, and a page with it has
    the payload at the anchor's [href] requested next. *)
Theorem page_error_status_is_terminal :
  forall env t resp,
    requests_get env page headers = Ok resp ->
    (400 <= status_code resp < 600 ->
     _get_frontdoor_ips env t
     = (SystemExit 1,
        t ++ [HttpGet page headers;
              fetch_failure_warning (HTTPError (status_code resp))])) /\
    (status_code resp < 400 \/ 600 <= status_code resp ->
     (soup_find env (content resp) "a" [("data-bi-id"%string, "downloadretry"%string)]
      = None ->
      _get_frontdoor_ips env t
      = (SystemExit 1, t ++ [HttpGet page headers; fetch_failure_warning AttributeError])) /\
     (forall href,
         finds_link env resp href ->
         exists o rest,
           _get_frontdoor_ips env t
           = (o, t ++ HttpGet page headers :: HttpGet href headers :: rest))).
Proof.
  intros env t resp Hget. split.
  - intros Hstatus.
    assert (Htry : _get_frontdoor_ips_try env t
                   = (Raise (HTTPError (status_code resp)), t ++ [HttpGet page headers])).
    { unfold _get_frontdoor_ips_try, http_get, raise_for_status, bind, emit, lift, ret, raise.
      rewrite Hget.
      replace ((400 <=? status_code resp) && (status_code resp <? 600)) with true
        by (symmetry; apply andb_true_intro; split;
            [ apply Z.leb_le | apply Z.ltb_lt ]; lia).
      reflexivity. }
    rewrite (fetch_handler _ _ _ _ Htry). now rewrite <- app_assoc.
  - intros Hstatus.
    assert (Hpage : fetches_page env resp).
    { split; [ assumption | ].
      apply andb_false_iff.
      destruct Hstatus; [ left; apply Z.leb_gt | right; apply Z.ltb_ge ]; lia. }
    split.
    + intros Hfind.
      rewrite (fetch_handler _ _ _ _ (fetch_try_no_anchor _ t _ Hpage Hfind)).
      now rewrite <- app_assoc.
    + intros href Hlink. now apply fetch_requests_the_payload with (resp := resp).
Qed.

Lemma page_error_status_is_terminal_witness :
  _get_frontdoor_ips Demo.page_down []
  = (SystemExit 1, [] ++ [HttpGet page headers; fetch_failure_warning (HTTPError 503)])
  /\
  exists o rest,
    _get_frontdoor_ips (Demo.healthy Demo.eleven_v4) []
    = (o, [] ++ HttpGet page headers :: HttpGet Demo.download_url headers :: rest).
Proof.
  split.
  - apply (proj1 (page_error_status_is_terminal
                    Demo.page_down [] {| status_code := 503; content := "" |} eq_refl)).
    simpl. lia.
  - apply (fun H => proj2 (proj2 (page_error_status_is_terminal
                                    (Demo.healthy Demo.eleven_v4) [] Demo.landing_page
                                    eq_refl) H)).
    + left. simpl. lia.
    + eexists. split; reflexivity.
Defined.

(** ** Further properties of the credential provider *)

Lemma get_auth_token_returns env settings token access_token t :
  token_answer env settings = Ok token ->
  lookup "access_token" token = Some access_token ->
  _get_auth_token env settings t = (Return access_token, t ++ [token_request settings]).
Proof.
  unfold token_answer. intros Htoken Hlookup.
  unfold _get_auth_token, token_getitem, bind, lift, emit, ret, raise, contains.
  now rewrite Htoken, Hlookup.
Qed.

(** An answer of the identity provider without [access_token] is logged
    only when it carries both [error] and [error_description]: when one of
    them is missing, building the record raises [KeyError] for the missing
    key, nothing is logged, and the exception, not [sys.exit(1)], ends
    [_get_auth_token].  When the MSAL call itself raises, its exception
    leaves [_get_auth_token] the same way. *)
Theorem auth_answer_without_error_keys_raises :
  forall env settings t,
    (forall token,
        token_answer env settings = Ok token ->
        contains "access_token" token = false ->
        lookup "error" token = None ->
        _get_auth_token env settings t
        = (Raise (KeyError "error"), t ++ [token_request settings])) /\
    (forall token error,
        token_answer env settings = Ok token ->
        contains "access_token" token = false ->
        lookup "error" token = Some error ->
        lookup "error_description" token = None ->
        _get_auth_token env settings t
        = (Raise (KeyError "error_description"), t ++ [token_request settings])) /\
    (forall e,
        token_answer env settings = Err e ->
        _get_auth_token env settings t = (Raise e, t ++ [token_request settings])).
Proof.
  intros env settings t. unfold token_answer. repeat apply conj.
  - intros token Htoken Hno Herr.
    unfold _get_auth_token, token_getitem, bind, lift, emit, ret, raise.
    now rewrite Htoken, Hno, Herr.
  - intros token error Htoken Hno Herr Hdesc.
    unfold _get_auth_token, token_getitem, bind, lift, emit, ret, raise.
    now rewrite Htoken, Hno, Herr, Hdesc.
  - intros e Htoken.
    unfold _get_auth_token, bind, lift, emit, ret, raise.
    now rewrite Htoken.
Qed.

Lemma auth_answer_without_error_keys_raises_witness :
  let world :=
    Demo.env Demo.token_without_description Demo.eleven_v4 Demo.ok_response Demo.ok_response in
  _get_auth_token world Demo.settings []
  = (Raise (KeyError "error_description"), [] ++ [token_request Demo.settings]).
Proof.
  intros world.
  apply (proj1 (proj2 (auth_answer_without_error_keys_raises world Demo.settings []))
               [("error"%string, "invalid_client"%string)] "invalid_client"%string);
    reflexivity.
Defined.

(** ** Further properties of the reconciler *)

Lemma read_ip_group_ok env settings auth_token ipAddresses tags location :
  read_ip_group env settings auth_token = Ok (ipAddresses, tags, location) ->
  ip_group_reads env settings auth_token ipAddresses tags location.
Proof.
  unfold read_ip_group, rbind. intros H.
  destruct (requests_get env _ _) as [ resp | ] eqn:Hget; [ | discriminate ].
  destruct (json_loads env (content resp)) as [ md | ] eqn:Hjson; [ | discriminate ].
  destruct (getitem md "properties") as [ props | ] eqn:Hprops; [ | discriminate ].
  destruct (getitem props "ipAddresses") as [ ips | ] eqn:Hips; [ | discriminate ].
  destruct (getitem md "tags") as [ tags' | ] eqn:Htags; [ | discriminate ].
  destruct (getitem md "location") as [ location' | ] eqn:Hloc; [ | discriminate ].
  injection H as -> -> ->.
  exists resp, md, props. auto 10.
Qed.

Lemma read_ip_group_fails env settings auth_token e addresses dry_run t :
  read_ip_group env settings auth_token = Err e ->
  update_azure_ip_group env settings auth_token addresses dry_run t
  = (Raise e, t ++ [HttpGet (resource_url settings) (bearer_headers auth_token)]).
Proof.
  unfold read_ip_group, rbind. intros H.
  unfold update_azure_ip_group, http_get, log_warning, bind, lift, emit, ret, raise.
  destruct (requests_get env _ _) as [ resp | ]; [ | congruence ].
  destruct (json_loads env (content resp)) as [ md | ]; [ | congruence ].
  destruct (getitem md "properties") as [ props | ]; [ | congruence ].
  destruct (getitem props "ipAddresses"); [ | congruence ].
  destruct (getitem md "tags"); [ | congruence ].
  destruct (getitem md "location"); [ discriminate | congruence ].
Qed.

(** The reconciler ends in one of two ways, decided by the read alone.
    Either the read went well, and then it returns, whatever the mode and
    whatever becomes of the write; or the read failed (the request raised,
    the body is not JSON, or it lacks [properties.ipAddresses], [tags] or
    [location]), and then the exception of the read leaves the reconciler
    right after the GET: nothing is logged, nothing is written, in dry-run
    mode or not.  It never calls [sys.exit]. *)
Theorem reconciler_returns_or_read_raises :
  forall env settings auth_token,
    (exists ipAddresses tags location,
        ip_group_reads env settings auth_token ipAddresses tags location /\
        forall addresses dry_run t,
          fst (update_azure_ip_group env settings auth_token addresses dry_run t) = Return tt)
    \/
    (exists e,
        forall addresses dry_run t,
          update_azure_ip_group env settings auth_token addresses dry_run t
          = (Raise e, t ++ [HttpGet (resource_url settings) (bearer_headers auth_token)])).
Proof.
  intros env settings auth_token.
  destruct (read_ip_group env settings auth_token) as [ [ [ ips tags ] location ] | e ] eqn:H.
  - left. exists ips, tags, location.
    pose proof (read_ip_group_ok _ _ _ _ _ _ H) as Hreads.
    split; [ exact Hreads | ].
    intros addresses dry_run t.
    now rewrite (update_after_read _ _ _ _ _ _ _ _ _ Hreads).
  - right. exists e. intros addresses dry_run t.
    now apply read_ip_group_fails.
Qed.

(** ** Computations that write nothing, computations that exit with 1 *)

Section Quiet.

Context {A B : Type}.

Lemma writes_nothing_ret (a : A) : writes_nothing (ret a).
Proof. intros t. reflexivity. Qed.

Lemma writes_nothing_raise (e : exn) : writes_nothing (@raise A e).
Proof. intros t. reflexivity. Qed.

Lemma writes_nothing_exit (code : Z) : writes_nothing (@exit A code).
Proof. intros t. reflexivity. Qed.

Lemma writes_nothing_lift (r : result A) : writes_nothing (lift r).
Proof. destruct r; [ apply writes_nothing_ret | apply writes_nothing_raise ]. Qed.

Lemma writes_nothing_bind (m : M A) (k : A -> M B) :
  writes_nothing m -> (forall a, writes_nothing (k a)) -> writes_nothing (bind m k).
Proof.
  intros Hm Hk t. unfold bind. specialize (Hm t).
  destruct (m t) as [ [ a | e | code ] t' ]; simpl in *; [ | assumption | assumption ].
  now rewrite Hk.
Qed.

Lemma writes_nothing_try (body : M A) (handler : exn -> M A) :
  writes_nothing body -> (forall e, writes_nothing (handler e)) ->
  writes_nothing (try_except_Exception body handler).
Proof.
  intros Hb Hh t. unfold try_except_Exception. specialize (Hb t).
  destruct (body t) as [ [ a | e | code ] t' ]; simpl in *; [ assumption | | assumption ].
  now rewrite Hh.
Qed.

Lemma exits_with_1_ret (a : A) : exits_with_1 (ret a).
Proof. intros t code. discriminate. Qed.

Lemma exits_with_1_raise (e : exn) : exits_with_1 (@raise A e).
Proof. intros t code. discriminate. Qed.

Lemma exits_with_1_exit : exits_with_1 (@exit A 1).
Proof. intros t code H. now injection H. Qed.

Lemma exits_with_1_lift (r : result A) : exits_with_1 (lift r).
Proof. destruct r; [ apply exits_with_1_ret | apply exits_with_1_raise ]. Qed.

Lemma exits_with_1_bind (m : M A) (k : A -> M B) :
  exits_with_1 m -> (forall a, exits_with_1 (k a)) -> exits_with_1 (bind m k).
Proof.
  intros Hm Hk t code. unfold bind. specialize (Hm t).
  destruct (m t) as [ [ a | e | c ] t' ]; simpl in *.
  - apply Hk.
  - discriminate.
  - intros H. injection H as <-. now apply Hm.
Qed.

Lemma exits_with_1_try (body : M A) (handler : exn -> M A) :
  exits_with_1 body -> (forall e, exits_with_1 (handler e)) ->
  exits_with_1 (try_except_Exception body handler).
Proof.
  intros Hb Hh t code. unfold try_except_Exception. specialize (Hb t).
  destruct (body t) as [ [ a | e | c ] t' ]; simpl in *.
  - discriminate.
  - apply Hh.
  - intros H. injection H as <-. now apply Hb.
Qed.

End Quiet.

Lemma writes_nothing_emit ev : is_put ev = false -> writes_nothing (emit ev).
Proof.
  intros H t. unfold emit. simpl. rewrite put_requests_app.
  unfold put_requests at 2. simpl. rewrite H. apply app_nil_r.
Qed.

Lemma writes_nothing_log_warning msg extra exc_info :
  writes_nothing (log_warning msg extra exc_info).
Proof. now apply writes_nothing_emit. Qed.

Lemma writes_nothing_http_get env url hdrs : writes_nothing (http_get env url hdrs).
Proof.
  unfold http_get. apply writes_nothing_bind; [ | intros; apply writes_nothing_lift ].
  now apply writes_nothing_emit.
Qed.

Lemma writes_nothing_token_request settings : writes_nothing (emit (token_request settings)).
Proof. now apply writes_nothing_emit. Qed.

Lemma writes_nothing_raise_for_status resp : writes_nothing (raise_for_status resp).
Proof.
  unfold raise_for_status.
  destruct ((400 <=? status_code resp) && (status_code resp <? 600));
    [ apply writes_nothing_raise | apply writes_nothing_ret ].
Qed.

Lemma exits_with_1_emit ev : exits_with_1 (emit ev).
Proof. intros t code. discriminate. Qed.

Lemma exits_with_1_raise_for_status resp : exits_with_1 (raise_for_status resp).
Proof.
  unfold raise_for_status.
  destruct ((400 <=? status_code resp) && (status_code resp <? 600));
    [ apply exits_with_1_raise | apply exits_with_1_ret ].
Qed.

Create HintDb quiet.
#[export] Hint Resolve writes_nothing_ret writes_nothing_raise writes_nothing_exit
  writes_nothing_lift writes_nothing_log_warning writes_nothing_http_get
  writes_nothing_token_request writes_nothing_raise_for_status : quiet.

Create HintDb exits.
#[export] Hint Resolve exits_with_1_ret exits_with_1_raise exits_with_1_exit
  exits_with_1_lift exits_with_1_emit exits_with_1_raise_for_status : exits.

Ltac quiet_steps :=
  repeat first
    [ solve [ auto with quiet ]
    | solve [ apply writes_nothing_emit; reflexivity ]
    | apply writes_nothing_bind; [ | intros ? ]
    | apply writes_nothing_try; [ | intros ? ]
    | match goal with
      | |- writes_nothing (if ?b then _ else _) => destruct b
      | |- writes_nothing (match ?x with _ => _ end) => destruct x
      end ].

Ltac exit_steps :=
  unfold http_get, http_put, log_warning;
  repeat first
    [ solve [ auto with exits ]
    | apply exits_with_1_bind; [ | intros ? ]
    | apply exits_with_1_try; [ | intros ? ]
    | match goal with
      | |- exits_with_1 (if ?b then _ else _) => destruct b
      | |- exits_with_1 (match ?x with _ => _ end) => destruct x
      end ].

Lemma writes_nothing_get_auth_token env settings :
  writes_nothing (_get_auth_token env settings).
Proof.
  unfold _get_auth_token, token_getitem. fold (token_request settings). quiet_steps.
Qed.

Lemma writes_nothing_get_frontdoor_ips env : writes_nothing (_get_frontdoor_ips env).
Proof. unfold _get_frontdoor_ips, _get_frontdoor_ips_try. quiet_steps. Qed.

Lemma writes_nothing_filter_ip_versions networks :
  writes_nothing (_filter_ip_versions networks).
Proof.
  intros t. rewrite _filter_ip_versions_spec.
  destruct (first_error networks); simpl; [ reflexivity | ].
  rewrite put_requests_app. apply app_nil_r.
Qed.

Lemma writes_nothing_dry_run env settings auth_token addresses :
  writes_nothing (update_azure_ip_group env settings auth_token addresses true).
Proof. unfold update_azure_ip_group. quiet_steps. Qed.

Lemma exits_with_1_get_auth_token env settings : exits_with_1 (_get_auth_token env settings).
Proof. unfold _get_auth_token, token_getitem. exit_steps. Qed.

Lemma exits_with_1_get_frontdoor_ips env : exits_with_1 (_get_frontdoor_ips env).
Proof. unfold _get_frontdoor_ips, _get_frontdoor_ips_try. exit_steps. Qed.

Lemma exits_with_1_filter_ip_versions networks : exits_with_1 (_filter_ip_versions networks).
Proof.
  intros t code. rewrite _filter_ip_versions_spec.
  destruct (first_error networks); discriminate.
Qed.

Lemma exits_with_1_update env settings auth_token addresses dry_run :
  exits_with_1 (update_azure_ip_group env settings auth_token addresses dry_run).
Proof. unfold update_azure_ip_group, update_azure_ip_group_try. exit_steps. Qed.

Lemma exits_with_1_main env settings args_dry_run :
  exits_with_1 (main_after_parse_args env settings args_dry_run).
Proof.
  rewrite main_unfold. unfold main_classify_and_update.
  apply exits_with_1_bind; [ apply exits_with_1_get_auth_token | intros auth_token ].
  apply exits_with_1_bind; [ apply exits_with_1_get_frontdoor_ips | intros ips ].
  apply exits_with_1_bind; [ apply exits_with_1_filter_ip_versions | intros d ].
  destruct (_ >? _); [ apply exits_with_1_update | exit_steps ].
Qed.

(** ** Further properties of the whole run *)

Lemma classifies_writes_nothing env settings auth_token d t :
  classifies env settings auth_token d t -> put_requests t = [].
Proof.
  intros (t_auth & ips & t_fetch & Hauth & Hfetch & Hfilter).
  pose proof (writes_nothing_filter_ip_versions ips t_fetch) as H3.
  pose proof (writes_nothing_get_frontdoor_ips env t_auth) as H2.
  pose proof (writes_nothing_get_auth_token env settings []) as H1.
  rewrite Hfilter in H3. rewrite Hfetch in H2. rewrite Hauth in H1. simpl in *.
  congruence.
Qed.

(** A run either gets as far as a classified list, or it has ended before
    without a write and without returning. *)
Lemma run_stops_or_classifies env settings args_dry_run :
  (exists auth_token d t, classifies env settings auth_token d t) \/
  (put_requests (snd (run env settings args_dry_run)) = [] /\
   forall u, fst (run env settings args_dry_run) <> Return u).
Proof.
  unfold run. rewrite main_unfold. unfold main_classify_and_update, bind.
  pose proof (writes_nothing_get_auth_token env settings []) as H1.
  destruct (_get_auth_token env settings []) as [ [ auth_token | e | code ] t_auth ] eqn:Hauth;
    simpl in H1; [ | right; split; [ exact H1 | intros u; discriminate ].. ].
  pose proof (writes_nothing_get_frontdoor_ips env t_auth) as H2.
  destruct (_get_frontdoor_ips env t_auth) as [ [ ips | e | code ] t_fetch ] eqn:Hfetch;
    simpl in H2; [ | right; split; [ simpl; congruence | intros u; discriminate ].. ].
  pose proof (writes_nothing_filter_ip_versions ips t_fetch) as H3.
  destruct (_filter_ip_versions ips t_fetch) as [ [ d | e | code ] t ] eqn:Hfilter;
    simpl in H3; [ | right; split; [ simpl; congruence | intros u; discriminate ].. ].
  left. exists auth_token, d, t, t_auth, ips, t_fetch. auto.
Qed.

(** A run started with [--dry-run] never sends a write request, in any
    world: whatever the identity provider, the vendor and the IP group
    answer, and however the run ends. *)
Theorem dry_run_never_writes :
  forall env settings, put_requests (snd (run env settings true)) = [].
Proof.
  intros env settings.
  assert (H : writes_nothing (main_after_parse_args env settings true)).
  { rewrite main_unfold. unfold main_classify_and_update.
    apply writes_nothing_bind; [ apply writes_nothing_get_auth_token | intros auth_token ].
    apply writes_nothing_bind; [ apply writes_nothing_get_frontdoor_ips | intros ips ].
    apply writes_nothing_bind; [ apply writes_nothing_filter_ip_versions | intros d ].
    destruct (_ >? _); [ apply writes_nothing_dry_run | quiet_steps ]. }
  exact (H []).
Qed.

(** A run sends a write request only when everything before it went well:
    if the trace of a run holds a write, then the run was not a dry run, a
    token was acquired, the list was fetched and classified, the v4 bucket
    has more entries than the threshold, and the read of the IP group
    returned a resource; and then the trace holds exactly one write, the one
    of the v4 bucket with the tags and location read. *)
Theorem write_requires_validation :
  forall env settings args_dry_run,
    put_requests (snd (run env settings args_dry_run)) <> [] ->
    args_dry_run = false /\
    exists auth_token d t ipAddresses tags location,
      classifies env settings auth_token d t /\
      Z.of_nat (List.length (ipv4 d)) > minimum_acceptable_v4_networks settings /\
      ip_group_reads env settings auth_token ipAddresses tags location /\
      put_requests (snd (run env settings args_dry_run))
      = [HttpPut (resource_url settings) (bearer_headers auth_token)
                 (put_body tags location (ipv4 d))].
Proof.
  intros env settings a Hput.
  destruct a.
  { exfalso. apply Hput.
    destruct (run_stops_or_classifies env settings true)
      as [ (auth_token & d & t & Hc) | [ H _ ] ]; [ | exact H ].
    rewrite (run_after_classification _ _ _ _ _ _ Hc).
    destruct (_ >? _).
    - rewrite writes_nothing_dry_run. now apply classifies_writes_nothing with (1 := Hc).
    - simpl. rewrite put_requests_app, (classifies_writes_nothing _ _ _ _ _ Hc).
      reflexivity. }
  split; [ reflexivity | ].
  destruct (run_stops_or_classifies env settings false)
    as [ (auth_token & d & t & Hc) | [ H _ ] ]; [ | contradiction ].
  pose proof (classifies_writes_nothing _ _ _ _ _ Hc) as Hquiet.
  rewrite (run_after_classification _ _ _ _ _ _ Hc) in *.
  destruct (Z.of_nat (List.length (ipv4 d)) >? minimum_acceptable_v4_networks settings)
    eqn:Hlen.
  2: { exfalso. apply Hput. simpl. rewrite put_requests_app, Hquiet. reflexivity. }
  destruct (read_ip_group env settings auth_token)
    as [ [ [ ips tags ] location ] | e ] eqn:Hread.
  2: { exfalso. apply Hput.
       rewrite (read_ip_group_fails _ _ _ _ _ _ _ Hread). simpl.
       rewrite put_requests_app, Hquiet. reflexivity. }
  pose proof (read_ip_group_ok _ _ _ _ _ _ Hread) as Hreads.
  exists auth_token, d, t, ips, tags, location.
  repeat split; auto.
  - rewrite Z.gtb_ltb in Hlen. apply Z.ltb_lt in Hlen. lia.
  - rewrite (update_after_read _ _ _ _ _ _ _ _ _ Hreads). simpl.
    rewrite put_requests_app, Hquiet. unfold put_requests. simpl.
    destruct (put_failure _ _ _ _); reflexivity.
Qed.

Lemma write_requires_validation_witness :
  false = false /\
  exists auth_token d t ipAddresses tags location,
    classifies (Demo.healthy Demo.eleven_v4) Demo.settings auth_token d t /\
    Z.of_nat (List.length (ipv4 d)) > minimum_acceptable_v4_networks Demo.settings /\
    ip_group_reads (Demo.healthy Demo.eleven_v4) Demo.settings auth_token
                   ipAddresses tags location /\
    put_requests (snd (run (Demo.healthy Demo.eleven_v4) Demo.settings false))
    = [HttpPut (resource_url Demo.settings) (bearer_headers auth_token)
               (put_body tags location (ipv4 d))].
Proof.
  apply (write_requires_validation (Demo.healthy Demo.eleven_v4) Demo.settings false).
  vm_compute. discriminate.
Defined.

(** Once the command line is parsed, the only code passed to [sys.exit]
    is 1. *)
Lemma run_exit_codes env settings args_dry_run :
  (forall code, fst (run env settings args_dry_run) = SystemExit code -> code = 1) /\
  (exit_status (fst (run env settings args_dry_run)) = 0 \/
   exit_status (fst (run env settings args_dry_run)) = 1).
Proof.
  pose proof (exits_with_1_main env settings args_dry_run []) as H.
  fold (run env settings args_dry_run) in H.
  split; [ exact H | ].
  destruct (fst (run env settings args_dry_run)) as [ u | e | code ]; simpl;
    [ now left | now right | right; now apply H ].
Qed.

(** Once the command line is parsed, the run returns only after the
    validation and the read. *)
Lemma run_exit_0 env settings args_dry_run :
  exit_status (fst (run env settings args_dry_run)) = 0 ->
  exists auth_token d t ipAddresses tags location,
    classifies env settings auth_token d t /\
    Z.of_nat (List.length (ipv4 d)) > minimum_acceptable_v4_networks settings /\
    ip_group_reads env settings auth_token ipAddresses tags location /\
    fst (run env settings args_dry_run) = Return tt.
Proof.
  intros H0.
  assert (Hret : exists u, fst (run env settings args_dry_run) = Return u).
  { destruct (run_exit_codes env settings args_dry_run) as [ H1 _ ].
    destruct (fst (run env settings args_dry_run)) as [ u | e | code ]; simpl in H0.
    - eauto.
    - discriminate.
    - specialize (H1 code eq_refl). lia. }
  destruct Hret as (u & Hu).
  destruct (run_stops_or_classifies env settings args_dry_run)
    as [ (auth_token & d & t & Hc) | [ _ H ] ]; [ | now elim (H u) ].
  rewrite (run_after_classification _ _ _ _ _ _ Hc) in *.
  destruct (Z.of_nat (List.length (ipv4 d)) >? minimum_acceptable_v4_networks settings)
    eqn:Hlen; [ | discriminate ].
  destruct (read_ip_group env settings auth_token)
    as [ [ [ ips tags ] location ] | e ] eqn:Hread.
  2: { rewrite (read_ip_group_fails _ _ _ _ _ _ _ Hread) in Hu. discriminate. }
  pose proof (read_ip_group_ok _ _ _ _ _ _ Hread) as Hreads.
  exists auth_token, d, t, ips, tags, location. repeat split; auto.
  - rewrite Z.gtb_ltb in Hlen. apply Z.ltb_lt in Hlen. lia.
  - now rewrite (update_after_read _ _ _ _ _ _ _ _ _ Hreads).
Qed.

(** [main] is the parse of the command line and then the run. *)
Lemma main_cases env settings parse_args argv :
  main env settings parse_args argv [] =
  match parse_args argv with
  | Return args_dry_run => run env settings args_dry_run
  | Raise e => (Raise e, [])
  | SystemExit code => (SystemExit code, [])
  end.
Proof.
  unfold main, bind, from_outcome, run.
  destruct (parse_args argv); reflexivity.
Qed.

(** The exit status of the process is 0 or 1 once argparse has accepted the
    command line: [main] returns, an exception leaves it, or the program
    calls [sys.exit], which it only ever does with the code 1.  Any other
    exit code comes from argparse itself (it exits on [--help] and on a
    usage error); argparse then ends the process before anything else is
    done: nothing is requested and nothing is logged. *)
Theorem exit_status_after_parsing_is_0_or_1 :
  forall env settings parse_args argv,
    (forall args_dry_run,
        parse_args argv = Return args_dry_run ->
        exit_status (fst (main env settings parse_args argv [])) = 0 \/
        exit_status (fst (main env settings parse_args argv [])) = 1) /\
    (forall code,
        fst (main env settings parse_args argv []) = SystemExit code ->
        code = 1 \/ parse_args argv = SystemExit code) /\
    (forall code,
        parse_args argv = SystemExit code ->
        main env settings parse_args argv [] = (SystemExit code, [])).
Proof.
  intros env settings parse_args argv. rewrite main_cases. repeat apply conj.
  - intros a ->. apply run_exit_codes.
  - intros code. destruct (parse_args argv) as [ a | e | c ]; simpl.
    + intros H. left. now apply (proj1 (run_exit_codes env settings a)).
    + discriminate.
    + intros H. right. congruence.
  - intros code ->. reflexivity.
Qed.

Lemma exit_status_after_parsing_is_0_or_1_witness :
  (exit_status (fst (main (Demo.healthy Demo.ten_v4) Demo.settings Demo.parse_args
                          ["--dry-run"%string] [])) = 0 \/
   exit_status (fst (main (Demo.healthy Demo.ten_v4) Demo.settings Demo.parse_args
                          ["--dry-run"%string] [])) = 1) /\
  main (Demo.healthy Demo.ten_v4) Demo.settings Demo.parse_args ["--bogus"%string] []
  = (SystemExit 2, []).
Proof.
  split.
  - apply (proj1 (exit_status_after_parsing_is_0_or_1
                    (Demo.healthy Demo.ten_v4) Demo.settings Demo.parse_args
                    ["--dry-run"%string]) true).
    reflexivity.
  - apply (proj2 (proj2 (exit_status_after_parsing_is_0_or_1
                           (Demo.healthy Demo.ten_v4) Demo.settings Demo.parse_args
                           ["--bogus"%string])) 2).
    reflexivity.
Defined.

(** Exit status 0 has two causes only.  Either argparse ended the process
    itself with status 0 (as it does after [--help]), before anything was
    done; or the command line was accepted and [main] returned, and then a
    token was acquired, the list was fetched and classified, the v4 bucket
    has more entries than the threshold, and the read of the IP group
    returned a resource.  (It does not mean that the write went well, or
    that there was one.) *)
Theorem exit_0_means_help_or_validated_and_read :
  forall env settings parse_args argv,
    exit_status (fst (main env settings parse_args argv [])) = 0 ->
    parse_args argv = SystemExit 0 /\
    main env settings parse_args argv [] = (SystemExit 0, [])
    \/
    exists args_dry_run auth_token d t ipAddresses tags location,
      parse_args argv = Return args_dry_run /\
      classifies env settings auth_token d t /\
      Z.of_nat (List.length (ipv4 d)) > minimum_acceptable_v4_networks settings /\
      ip_group_reads env settings auth_token ipAddresses tags location /\
      fst (main env settings parse_args argv []) = Return tt.
Proof.
  intros env settings parse_args argv. rewrite main_cases.
  destruct (parse_args argv) as [ a | e | code ]; simpl.
  - intros H0. right.
    destruct (run_exit_0 env settings a H0)
      as (auth_token & d & t & ips & tags & location & Hc & Hlen & Hreads & Hret).
    exists a, auth_token, d, t, ips, tags, location. auto.
  - discriminate.
  - intros ->. now left.
Qed.

Lemma exit_0_means_help_or_validated_and_read_witness :
  let world := Demo.env Demo.good_token Demo.eleven_v4 Demo.ok_response Demo.conflict_response in
  (Demo.parse_args [] = SystemExit 0 /\
   main world Demo.settings Demo.parse_args [] [] = (SystemExit 0, [])
   \/
   exists args_dry_run auth_token d t ipAddresses tags location,
     Demo.parse_args [] = Return args_dry_run /\
     classifies world Demo.settings auth_token d t /\
     Z.of_nat (List.length (ipv4 d)) > minimum_acceptable_v4_networks Demo.settings /\
     ip_group_reads world Demo.settings auth_token ipAddresses tags location /\
     fst (main world Demo.settings Demo.parse_args [] []) = Return tt)
  /\
  (Demo.parse_args ["--help"%string] = SystemExit 0 /\
   main world Demo.settings Demo.parse_args ["--help"%string] [] = (SystemExit 0, [])
   \/
   exists args_dry_run auth_token d t ipAddresses tags location,
     Demo.parse_args ["--help"%string] = Return args_dry_run /\
     classifies world Demo.settings auth_token d t /\
     Z.of_nat (List.length (ipv4 d)) > minimum_acceptable_v4_networks Demo.settings /\
     ip_group_reads world Demo.settings auth_token ipAddresses tags location /\
     fst (main world Demo.settings Demo.parse_args ["--help"%string] []) = Return tt).
Proof.
  intros world. split.
  - apply (exit_0_means_help_or_validated_and_read world Demo.settings Demo.parse_args []).
    vm_compute. reflexivity.
  - apply (exit_0_means_help_or_validated_and_read
             world Demo.settings Demo.parse_args ["--help"%string]).
    vm_compute. reflexivity.
Defined.

(** The validation compares with [>] and nothing else guards the write: a
    threshold below zero lets every classified list through, the empty one
    too, and a run that is not a dry run then replaces the address list of
    the IP group by the empty list; with a threshold of zero or more an
    empty v4 bucket always ends the run with exit status 1 before any
    request to the IP group. *)
Theorem empty_bucket_and_the_threshold :
  forall env settings auth_token d t,
    classifies env settings auth_token d t ->
    ipv4 d = [] ->
    (minimum_acceptable_v4_networks settings < 0 ->
     forall ipAddresses tags location,
       ip_group_reads env settings auth_token ipAddresses tags location ->
       put_requests (snd (run env settings false))
       = [HttpPut (resource_url settings) (bearer_headers auth_token)
                  (put_body tags location [])]) /\
    (0 <= minimum_acceptable_v4_networks settings ->
     forall args_dry_run,
       run env settings args_dry_run = (SystemExit 1, t ++ [below_threshold_warning settings])).
Proof.
  intros env settings auth_token d t Hc Hempty. split.
  - intros Hneg ips tags location Hreads.
    rewrite (run_after_classification _ _ _ _ _ _ Hc), Hempty. simpl.
    rewrite Z.gtb_ltb, (proj2 (Z.ltb_lt _ _) Hneg).
    rewrite (update_after_read _ _ _ _ _ _ _ _ _ Hreads). simpl.
    rewrite put_requests_app, (classifies_writes_nothing _ _ _ _ _ Hc).
    unfold put_requests. simpl. destruct (put_failure _ _ _ _); reflexivity.
  - intros Hpos a.
    rewrite (run_after_classification _ _ _ _ _ _ Hc), Hempty. simpl.
    now rewrite Z.gtb_ltb, (proj2 (Z.ltb_ge _ _) Hpos).
Qed.

Lemma empty_bucket_and_the_threshold_witness :
  put_requests (snd (run (Demo.healthy []) Demo.settings_negative_threshold false))
  = [HttpPut (resource_url Demo.settings_negative_threshold) (bearer_headers "eyJ0-token")
             (put_body (PDict [("env"%string, PStr "prod")]) (PStr "eastus") [])].
Proof.
  apply (proj1 (empty_bucket_and_the_threshold
                  (Demo.healthy []) Demo.settings_negative_threshold "eyJ0-token"
                  {| ipv4 := []; ipv6 := [] |}
                  (snd (_filter_ip_versions []
                          (snd (_get_frontdoor_ips (Demo.healthy [])
                                  (snd (_get_auth_token (Demo.healthy [])
                                          Demo.settings_negative_threshold []))))))
                  ltac:(do 3 eexists; repeat split; vm_compute; reflexivity)
                  eq_refl)
               ltac:(vm_compute; reflexivity)
               (PList [PStr "1.2.3.0/24"])).
  exists Demo.ip_group_body, Demo.existing_resource,
    (PDict [("ipAddresses"%string, PList [PStr "1.2.3.0/24"])]).
  repeat split; reflexivity.
Defined.

Lemma get_frontdoor_ips_returns env href prefixes t :
  fetches_prefixes env href prefixes ->
  _get_frontdoor_ips env t
  = (Return prefixes, t ++ [HttpGet page headers; HttpGet href headers]).
Proof.
  intros (resp & file_resp & sections & frontdoor & properties
          & Hpage & Hlink & Hget & (data & values & Hjson & Hvalues & Hiter)
          & Hnext & Hprops & Hprefixes).
  pose proof (fetch_try_payload env t resp href Hpage Hlink) as Htry.
  unfold fetches_payload in Hget. rewrite Hget in Htry.
  unfold rbind in Htry. rewrite Hjson, Hvalues, Hiter, Hnext in Htry.
  unfold _get_frontdoor_ips, try_except_Exception, bind at 1.
  rewrite Htry. unfold bind, lift, ret. now rewrite Hprops, Hprefixes.
Qed.

Lemma all_parse_first_error networks :
  Forall (fun x => is_ipv4 x = true \/ is_ipv6 x = true) networks ->
  first_error networks = None.
Proof.
  induction 1 as [ | x rest Hx _ IH ]; simpl; [ reflexivity | ].
  unfold is_ipv4, is_ipv6 in Hx.
  destruct (ipaddress.ip_network x); [ exact IH | destruct Hx; discriminate ].
Qed.

(** The stages compose into the whole run.  When a token is issued, the
    fetch chain yields a list whose elements are all networks, the list has
    more IPv4 elements than the threshold, and the IP group can be read,
    then a run that is not a dry run consists of exactly these steps in this
    order: the token request, the GET of the page, the GET of the payload,
    the summary of the classification, the GET of the IP group with the
    token acquired, the record of what was read, the record of what is
    sent, the PUT of the IPv4 elements, and, when the write goes well, the
    record of the success; it ends with exit status 0.  A dry run is the
    same up to the record of what was read and ends with the record that
    the update is skipped. *)
Theorem stages_compose_into_the_run :
  forall env settings token access_token href prefixes ipAddresses tags location,
    token_answer env settings = Ok token ->
    lookup "access_token" token = Some access_token ->
    fetches_prefixes env href prefixes ->
    Forall (fun x => is_ipv4 x = true \/ is_ipv6 x = true) prefixes ->
    Z.of_nat (List.length (filter is_ipv4 prefixes)) > minimum_acceptable_v4_networks settings ->
    ip_group_reads env settings access_token ipAddresses tags location ->
    let d := {| ipv4 := filter is_ipv4 prefixes; ipv6 := filter is_ipv6 prefixes |} in
    let read_steps :=
      [token_request settings;
       HttpGet page headers;
       HttpGet href headers;
       split_summary d;
       HttpGet (resource_url settings) (bearer_headers access_token);
       metadata_record ipAddresses tags location] in
    (put_failure env settings access_token (put_body tags location (ipv4 d)) = None ->
     run env settings false
     = (Return tt,
        read_steps
          ++ [LogWarning "Submitting new list of IPs to Azure API"
                         [("ips"%string, PList (ipv4 d))] None;
              HttpPut (resource_url settings) (bearer_headers access_token)
                      (put_body tags location (ipv4 d));
              LogWarning "Successfully updated IP Group with latest set of networks"
                         [] None])) /\
    run env settings true
    = (Return tt,
       read_steps ++ [LogWarning "Dry Run mode enabled, skipping actual update" [] None]).
Proof.
  intros env settings token access_token href prefixes ips tags location
         Htoken Hlookup Hfetch Hparse Hlen Hreads d read_steps.
  assert (Hc : classifies env settings access_token d
                 [token_request settings; HttpGet page headers; HttpGet href headers;
                  split_summary d]).
  { exists [token_request settings], prefixes,
      [token_request settings; HttpGet page headers; HttpGet href headers].
    repeat split.
    - exact (get_auth_token_returns _ _ _ _ [] Htoken Hlookup).
    - exact (get_frontdoor_ips_returns _ _ _ [token_request settings] Hfetch).
    - rewrite _filter_ip_versions_spec, (all_parse_first_error _ Hparse). reflexivity. }
  assert (Hgt : (Z.of_nat (List.length (ipv4 d)) >? minimum_acceptable_v4_networks settings)
                = true)
    by (rewrite Z.gtb_ltb; apply Z.ltb_lt; simpl; lia).
  split.
  - intros Hput.
    rewrite (run_after_classification _ _ _ _ _ _ Hc), Hgt.
    rewrite (update_after_read _ _ _ _ _ _ _ _ _ Hreads), Hput. reflexivity.
  - rewrite (run_after_classification _ _ _ _ _ _ Hc), Hgt.
    rewrite (update_after_read _ _ _ _ _ _ _ _ _ Hreads). reflexivity.
Qed.

Lemma stages_compose_into_the_run_witness :
  run (Demo.healthy Demo.eleven_v4) Demo.settings true
  = (Return tt,
     [token_request Demo.settings;
      HttpGet page headers;
      HttpGet Demo.download_url headers;
      split_summary {| ipv4 := filter is_ipv4 Demo.eleven_v4;
                       ipv6 := filter is_ipv6 Demo.eleven_v4 |};
      HttpGet (resource_url Demo.settings) (bearer_headers "eyJ0-token");
      metadata_record (PList [PStr "1.2.3.0/24"]) (PDict [("env"%string, PStr "prod")])
                      (PStr "eastus")]
       ++ [LogWarning "Dry Run mode enabled, skipping actual update" [] None]).
Proof.
  apply (fun Hf Hp Hl Hr =>
           proj2 (stages_compose_into_the_run
                    (Demo.healthy Demo.eleven_v4) Demo.settings
                    [("token_type"%string, "Bearer"%string);
                     ("access_token"%string, "eyJ0-token"%string)]
                    "eyJ0-token"%string Demo.download_url Demo.eleven_v4
                    (PList [PStr "1.2.3.0/24"]) (PDict [("env"%string, PStr "prod")])
                    (PStr "eastus") eq_refl eq_refl Hf Hp Hl Hr)).
  - exists Demo.landing_page, Demo.payload_file,
      [Demo.section "AzureCloud" [PStr "13.64.0.0/16"];
       Demo.section "AzureFrontDoor.Frontend" Demo.eleven_v4],
      (Demo.section "AzureFrontDoor.Frontend" Demo.eleven_v4),
      (PDict [("addressPrefixes"%string, PList Demo.eleven_v4)]).
    repeat split; try reflexivity.
    + eexists. split; reflexivity.
    + do 2 eexists. repeat split; reflexivity.
  - repeat constructor.
  - vm_compute. reflexivity.
  - exists Demo.ip_group_body, Demo.existing_resource,
      (PDict [("ipAddresses"%string, PList [PStr "1.2.3.0/24"])]).
    repeat split; reflexivity.
Defined.

(** ** No call is repeated *)

Lemma requests_app t1 t2 : requests (t1 ++ t2) = requests t1 ++ requests t2.
Proof. apply filter_app. Qed.

Lemma auth_requests env settings t :
  requests (snd (_get_auth_token env settings t)) = requests t ++ [token_request settings].
Proof.
  unfold _get_auth_token, token_getitem, log_warning, bind, lift, emit, ret, raise, exit.
  fold (token_request settings).
  destruct (acquire_token_for_client env _ _ _ _) as [ token | e ]; simpl.
  2: { rewrite requests_app. reflexivity. }
  destruct (contains "access_token" token).
  - destruct (lookup "access_token" token); simpl; now rewrite requests_app.
  - destruct (lookup "error" token); simpl; [ | now rewrite requests_app ].
    destruct (lookup "error_description" token); simpl; rewrite ?requests_app; simpl;
      now rewrite ?app_nil_r.
Qed.

Lemma filter_requests networks t :
  requests (snd (_filter_ip_versions networks t)) = requests t.
Proof.
  rewrite _filter_ip_versions_spec.
  destruct (first_error networks); simpl; [ reflexivity | ].
  rewrite requests_app. apply app_nil_r.
Qed.

Lemma fetch_requests env t :
  (exists href,
      requests (snd (_get_frontdoor_ips env t))
      = requests t ++ [HttpGet page headers; HttpGet href headers])
  \/
  (requests (snd (_get_frontdoor_ips env t)) = requests t ++ [HttpGet page headers] /\
   forall l, fst (_get_frontdoor_ips env t) <> Return l).
Proof.
  unfold _get_frontdoor_ips, _get_frontdoor_ips_try, try_except_Exception,
    http_get, raise_for_status, log_warning, bind, lift, emit, ret, raise, exit.
  destruct (requests_get env page headers) as [ resp | e ]; simpl.
  2: { right. split; [ | intros l; discriminate ].
       rewrite !requests_app. simpl. now rewrite app_nil_r. }
  destruct ((400 <=? status_code resp) && (status_code resp <? 600)); simpl.
  { right. split; [ | intros l; discriminate ].
    rewrite !requests_app. simpl. now rewrite app_nil_r. }
  destruct (soup_find env (content resp) "a" _) as [ attrs | ]; simpl.
  2: { right. split; [ | intros l; discriminate ].
       rewrite !requests_app. simpl. now rewrite app_nil_r. }
  destruct (lookup "href" attrs) as [ href | ]; simpl.
  2: { right. split; [ | intros l; discriminate ].
       rewrite !requests_app. simpl. now rewrite app_nil_r. }
  left. exists href.
  destruct (requests_get env href headers) as [ file_resp | e ]; simpl.
  2: { rewrite !requests_app. simpl. now rewrite app_nil_r, <- app_assoc. }
  destruct (json_loads env (content file_resp)) as [ data | e ]; simpl.
  2: { rewrite !requests_app. simpl. now rewrite app_nil_r, <- app_assoc. }
  destruct (getitem data "values") as [ values | e ]; simpl.
  2: { rewrite !requests_app. simpl. now rewrite app_nil_r, <- app_assoc. }
  destruct (iterate values) as [ sections | e ]; simpl.
  2: { rewrite !requests_app. simpl. now rewrite app_nil_r, <- app_assoc. }
  destruct (next_section "AzureFrontDoor.Frontend" sections) as [ frontdoor | e ]; simpl.
  2: { rewrite !requests_app. simpl. now rewrite app_nil_r, <- app_assoc. }
  destruct (getitem frontdoor "properties") as [ properties | e ]; simpl.
  2: { rewrite !requests_app. simpl. now rewrite <- app_assoc. }
  destruct (getitem properties "addressPrefixes") as [ addressPrefixes | e ]; simpl.
  2: { rewrite !requests_app. simpl. now rewrite <- app_assoc. }
  destruct (iterate addressPrefixes); simpl;
    rewrite !requests_app; simpl; now rewrite <- app_assoc.
Qed.

Lemma update_requests env settings auth_token addresses dry_run t :
  let get := HttpGet (resource_url settings) (bearer_headers auth_token) in
  requests (snd (update_azure_ip_group env settings auth_token addresses dry_run t))
  = requests t ++ [get]
  \/
  exists body,
    requests (snd (update_azure_ip_group env settings auth_token addresses dry_run t))
    = requests t ++ [get; HttpPut (resource_url settings) (bearer_headers auth_token) body].
Proof.
  intros get.
  destruct (read_ip_group env settings auth_token)
    as [ [ [ ips tags ] location ] | e ] eqn:Hread.
  - rewrite (update_after_read _ _ _ _ _ _ _ _ _ (read_ip_group_ok _ _ _ _ _ _ Hread)).
    simpl. rewrite requests_app.
    destruct dry_run; simpl.
    + now left.
    + right. exists (put_body tags location addresses).
      destruct (put_failure _ _ _ _); reflexivity.
  - rewrite (read_ip_group_fails _ _ _ _ _ _ _ Hread). simpl.
    rewrite requests_app. now left.
Qed.

(** Closes a goal that asks for the rest of the sequence of calls. *)
Ltac initial_part :=
  simpl; eexists; split; [ reflexivity | eexists; reflexivity ].

(** Nothing is retried and nothing is called out of turn.  In every world
    and in either mode, the calls of a run that leave the process are an
    initial part of this sequence: the token request, the GET of the page,
    the GET of the payload, the GET of the IP group, the PUT of the IP
    group; each is made at most once, the token request always, and the two
    requests to the IP group go to the same address with the same token. *)
Theorem calls_are_made_once_and_in_order :
  forall env settings args_dry_run,
    exists href auth_token body rest,
      [token_request settings;
       HttpGet page headers;
       HttpGet href headers;
       HttpGet (resource_url settings) (bearer_headers auth_token);
       HttpPut (resource_url settings) (bearer_headers auth_token) body]
      = requests (snd (run env settings args_dry_run)) ++ rest /\
      exists more, requests (snd (run env settings args_dry_run))
                   = token_request settings :: more.
Proof.
  intros env settings a.
  unfold run. rewrite main_unfold. unfold main_classify_and_update, bind.
  pose proof (auth_requests env settings []) as H1.
  destruct (_get_auth_token env settings []) as [ [ auth_token | e | code ] t1 ];
    simpl in H1 |- *;
    [ | exists ""%string, ""%string, PNone; rewrite H1; initial_part.. ].
  pose proof (fetch_requests env t1) as H2.
  destruct (_get_frontdoor_ips env t1) as [ [ ips | e | code ] t2 ]; simpl in H2 |- *.
  2, 3: destruct H2 as [ (href & H2) | (H2 & _) ]; rewrite H2, H1;
        [ exists href, ""%string, PNone | exists ""%string, ""%string, PNone ];
        initial_part.
  destruct H2 as [ (href & H2) | (_ & H2) ]; [ | now elim (H2 ips) ].
  rewrite H1 in H2. simpl in H2.
  pose proof (filter_requests ips t2) as H3.
  destruct (_filter_ip_versions ips t2) as [ [ d | e | code ] t3 ]; simpl in H3 |- *;
    rewrite H2 in H3;
    [ | exists href, ""%string, PNone; rewrite H3; initial_part.. ].
  destruct (_ >? _).
  - destruct (update_requests env settings auth_token (ipv4 d) a t3) as [ H4 | (body & H4) ];
      rewrite H4, H3.
    + exists href, auth_token, PNone. initial_part.
    + exists href, auth_token, body. initial_part.
  - unfold log_warning, emit, exit. simpl. rewrite requests_app, H3. simpl.
    exists href, ""%string, PNone. initial_part.
Qed.
